(** * Document360 drive-folder client

    A shallow embedding of [document360_api.py]: the model class that talks
    to the folder endpoint, the console view, the presenter that sequences
    one operation, and [main], which chains the four operations.

    The program is Python on top of the [requests] HTTP library.  Python
    values decoded from JSON are a small inductive type, exceptions are
    values of an error monad, and the remote server, the requests already
    issued, the instance fields of the model object and the calls made on
    the view are threaded through a state. *)

From Stdlib Require Import ZArith String Ascii List Bool Lia.
From Stdlib Require Import Floats.SpecFloat.
From stdpp Require Import base option list strings gmap.

Local Open Scope string_scope.
Local Open Scope list_scope.
Local Open Scope Z_scope.

(** ** Python values and exceptions *)

Module Py.

(** What [json.loads] can produce: [None], [bool], [int], [float], [str],
    [list] and [dict] with string keys. *)
#[warnings="-register-all"] Inductive value : Type :=
| VNone
| VBool (b : bool)
| VInt (n : Z)
| VFloat (f : spec_float)
| VStr (s : string)
| VList (xs : list value)
| VDict (d : gmap string value).

(** [bool(v)]: the truth value Python's [if v] and [not v] use. *)
Definition truthy (v : value) : bool :=
  match v with
  | VNone => false
  | VBool b => b
  | VInt n => negb (n =? 0)
  | VFloat (S754_zero _) => false
  | VFloat _ => true
  | VStr EmptyString => false
  | VStr _ => true
  | VList [] => false
  | VList _ => true
  | VDict d => negb (Nat.eqb (size d) 0)
  end.

Arguments truthy !v /.

(** [v is None] *)
Definition is_None (v : value) : bool :=
  match v with VNone => true | _ => false end.
Arguments is_None !v /.

(** [isinstance(v, list)] *)
Definition isinstance_list (v : value) : bool :=
  match v with VList _ => true | _ => false end.

(** The exception classes the program can meet.  [RequestException]
    stands for the transport-level subclasses of
    [requests.RequestException]; [JSONDecodeError] is
    [requests.exceptions.JSONDecodeError], which [Response.json] raises on
    a body that is not JSON and which derives from both
    [requests.RequestException] and [ValueError].  [ValueError] is the
    plain built-in class, and [RecursionError] the one of an exhausted
    recursion limit; neither is a [RequestException]. *)
Inductive request_error : Type :=
| ConnectionError | Timeout | SSLError | TooManyRedirects | InvalidURL.

Inductive exn : Type :=
| RequestException (cause : request_error)
| JSONDecodeError
| ValueError
| RecursionError
| TypeError
| AttributeError
| KeyError
| SystemExit (code : Z).

(** [isinstance(e, requests.RequestException)] *)
Definition is_RequestException (e : exn) : bool :=
  match e with
  | RequestException _ | JSONDecodeError => true
  | _ => false
  end.

(** [isinstance(e, ValueError)] *)
Definition is_ValueError (e : exn) : bool :=
  match e with JSONDecodeError | ValueError => true | _ => false end.

Inductive result (A : Type) : Type :=
| Return (a : A)
| Raise (e : exn).
Arguments Return {A} a.
Arguments Raise {A} e.

(** [key in container] for a string key: key membership on a dict,
    element membership on a list (a string equals only an equal string),
    substring test on a string, [TypeError] on anything else. *)
Definition contains (container : value) (key : string) : result bool :=
  match container with
  | VDict d => Return (bool_decide (is_Some (d !! key)))
  | VList xs =>
      Return (existsb (fun x => match x with
                                | VStr s => String.eqb key s
                                | _ => false
                                end) xs)
  | VStr s =>
      Return (match String.index 0 key s with Some _ => true | None => false end)
  | _ => Raise TypeError
  end.

(** [container[key]] for a string key. *)
Definition getitem (container : value) (key : string) : result value :=
  match container with
  | VDict d => match d !! key with Some v => Return v | None => Raise KeyError end
  | _ => Raise TypeError
  end.

(** [obj.get(key, dflt)]: only a dict has the method. *)
Definition get (obj : value) (key : string) (dflt : value) : result value :=
  match obj with
  | VDict d => Return (default dflt (d !! key))
  | _ => Raise AttributeError
  end.

(** Sequencing of operations that may raise, and [try]/[except] around
    one that touches no state. *)
#[export] Instance result_ret : MRet result := fun A a => Return a.

#[export] Instance result_bind : MBind result := fun A B k r =>
  match r with
  | Return a => k a
  | Raise e => Raise e
  end.

Definition attempt {A : Type} (r : result A) (handles : exn -> bool)
    (h : exn -> result A) : result A :=
  match r with
  | Raise e => if handles e then h e else Raise e
  | done => done
  end.

End Py.
Import Py.

(** ** The [requests] library, as far as the program uses it

    The library is imported, not part of the program.  Three facts about
    it matter here: a call either returns a [Response] or raises a subclass
    of [requests.RequestException]; on a body that is not JSON
    [Response.json()] raises [requests.exceptions.JSONDecodeError]
    (requests 2.27 and later), which is both a [RequestException] and a
    [ValueError], while a [RecursionError] or a plain [ValueError] of the
    decoder passes through it unchanged; and the truth value of a
    [Response] is its [ok] property. *)

(** Decoding a body can fail in two ways that are not "this is not JSON":
    a body nested deeper than the recursion limit, and an integer literal
    longer than the interpreter converts. *)
Inductive decode_crash : Type :=
| TooDeep
| HugeInteger.

(** The exception [json()] lets through in each case. *)
Definition crash_exn (c : decode_crash) : exn :=
  match c with
  | TooDeep => RecursionError
  | HugeInteger => ValueError
  end.

(** What [json()] does with the body of a response: it returns the decoded
    value, or the body is not JSON, or decoding crashes. *)
Inductive Decoding : Type :=
| Decoded (v : value)
| NotJSON
| Crash (c : decode_crash).

(** A received response: [status_code], [text], and what [json()] makes of
    the body. *)
Record Response : Type := {
  status_code : Z;
  text : string;
  decoded : Decoding
}.

(** [Response.json()] *)
Definition json (r : Response) : result value :=
  match decoded r with
  | Decoded v => Return v
  | NotJSON => Raise JSONDecodeError
  | Crash c => Raise (crash_exn c)
  end.

(** [Response.__bool__], which is [Response.ok]: false exactly when
    [raise_for_status] would raise, that is for a status in 400..599. *)
Definition ok (r : Response) : bool :=
  negb ((400 <=? status_code r) && (status_code r <? 600)).

(** The two URL shapes of the program: [base_url] and
    [f"{base_url}/{folder_id}"]. *)
Inductive Url : Type :=
| Collection (base : string)
| Item (base : string) (folder_id : value).

Record Request : Type := {
  method : string;
  url : Url;
  req_headers : gmap string string;
  req_json : option value;
  timeout : Z
}.

(** The remote side: what the [n]-th request of the run is answered with,
    a response or a transport-level fault. *)
Definition Transport : Type := nat -> Request -> Response + request_error.

(** ** Program state *)

(** Instance fields of a [Document360Model] object. *)
Record Model : Type := {
  base_url : string;
  headers : gmap string string;
  folder_id : value
}.

(** The f-strings handed to the view, kept symbolic. *)
Inductive Message : Type :=
| Msg (s : string)
| MsgCreated (folder_name : string) (id : value)
| MsgRenamed (id : value) (new_name : string)
| MsgDeleted (id : value).

(** A call of a [Document360View] method with its arguments. *)
Module ViewCall.
Inductive t : Type :=
| show_success (message : Message)
| log_request (meth : string) (u : Url) (hdrs : gmap string string)
    (body : option value)
| log_response (response : option Response)
| show_error (message : Message) (status : option Z)
    (expected_status : option Z) (error_detail : value).
End ViewCall.

Record World : Type := {
  model : Model;
  remote : Transport;
  sent : list Request;
  calls : list ViewCall.t
}.

(** ** The monad of the program: state and exceptions *)

Definition M (A : Type) : Type := World -> result A * World.

#[export] Instance M_ret : MRet M := fun A a w => (Return a, w).

#[export] Instance M_bind : MBind M := fun A B k m w =>
  match m w with
  | (Return a, w') => k a w'
  | (Raise e, w') => (Raise e, w')
  end.

Definition raise {A : Type} (e : exn) : M A := fun w => (Raise e, w).

(** A pure Python operation that may raise. *)
Definition lift {A : Type} (r : result A) : M A := fun w => (r, w).

(** [try: m  except <class>: h] *)
Definition try_except {A : Type} (m : M A) (handles : exn -> bool)
    (h : exn -> M A) : M A := fun w =>
  match m w with
  | (Raise e, w') => if handles e then h e w' else (Raise e, w')
  | done => done
  end.

Definition self : M Model := fun w => (Return (model w), w).

Definition set_folder_id (v : value) : M unit := fun w =>
  (Return tt,
   {| model := {| base_url := base_url (model w);
                  headers := headers (model w);
                  folder_id := v |};
      remote := remote w; sent := sent w; calls := calls w |}).

Definition view_call (c : ViewCall.t) : M unit := fun w =>
  (Return tt,
   {| model := model w; remote := remote w; sent := sent w;
      calls := calls w ++ [c] |}).

(** One HTTP exchange: the request is recorded, and the remote side either
    answers or the library raises a [RequestException]. *)
Definition request (req : Request) : M Response := fun w =>
  let w' := {| model := model w; remote := remote w;
               sent := sent w ++ [req]; calls := calls w |} in
  match remote w (length (sent w)) req with
  | inl r => (Return r, w')
  | inr cause => (Raise (RequestException cause), w')
  end.

Module requests.

Definition get (u : Url) (hdrs : gmap string string) (tmo : Z) : M Response :=
  request {| method := "GET"; url := u; req_headers := hdrs;
             req_json := None; timeout := tmo |}.

Definition post (u : Url) (hdrs : gmap string string) (body : value)
    (tmo : Z) : M Response :=
  request {| method := "POST"; url := u; req_headers := hdrs;
             req_json := Some body; timeout := tmo |}.

Definition put (u : Url) (hdrs : gmap string string) (body : value)
    (tmo : Z) : M Response :=
  request {| method := "PUT"; url := u; req_headers := hdrs;
             req_json := Some body; timeout := tmo |}.

Definition delete (u : Url) (hdrs : gmap string string) (tmo : Z) : M Response :=
  request {| method := "DELETE"; url := u; req_headers := hdrs;
             req_json := None; timeout := tmo |}.

End requests.

(** ** class Document360Model *)

Module Document360Model.

(** [__init__] *)
Definition init (api_token : string) : Model :=
  {| base_url := "https://apihub.document360.io/v2/Drive/Folders";
     headers := {[ "api_token" := api_token;
                   "Content-Type" := "application/json" ]};
     folder_id := VNone |}.

Definition get_all_folders : M (value * option Response) :=
  try_except
    (this ← self;
     response ← requests.get (Collection (base_url this)) (headers this) 10;
     if status_code response =? 200 then
       data ← lift (json response);
       if isinstance_list data then mret (data, Some response)
       else mret (VNone, Some response)
     else mret (VNone, Some response))
    is_RequestException
    (fun _ => mret (VNone, None)).

Definition create_folder (folder_name : string) : M (value * option Response) :=
  let body := VDict {[ "name" := VStr folder_name ]} in
  try_except
    (this ← self;
     response ← requests.post (Collection (base_url this)) (headers this) body 10;
     if status_code response =? 201 then
       response_data ← lift (json response);
       has_id ← lift (contains response_data "id");
       if (has_id : bool) then
         id ← lift (getitem response_data "id");
         set_folder_id id;;
         this ← self;
         mret (folder_id this, Some response)
       else mret (VNone, Some response)
     else mret (VNone, Some response))
    is_RequestException
    (fun _ => mret (VNone, None)).

Definition update_folder (folder_id : value) (new_name : string)
    : M (bool * option Response) :=
  if negb (truthy folder_id) then mret (false, None)
  else
    this ← self;
    let u := Item (base_url this) folder_id in
    let body := VDict {[ "name" := VStr new_name ]} in
    try_except
      (response ← requests.put u (headers this) body 10;
       mret (status_code response =? 200, Some response))
      is_RequestException
      (fun _ => mret (false, None)).

Definition delete_folder (folder_id : value) : M (bool * option Response) :=
  if negb (truthy folder_id) then mret (false, None)
  else
    this ← self;
    let u := Item (base_url this) folder_id in
    try_except
      (response ← requests.delete u (headers this) 10;
       mret (status_code response =? 204, Some response))
      is_RequestException
      (fun _ => mret (false, None)).

End Document360Model.

(** ** class Document360View *)

Module Document360View.

(** The methods print; a call is recorded with its arguments, and what it
    prints is [printed] below.  [print] and [json.dumps] themselves are
    taken to succeed. *)
Definition log_request (meth : string) (u : Url) (hdrs : gmap string string)
    (body : option value) : M unit :=
  view_call (ViewCall.log_request meth u hdrs body).

(** The one place where a view method can raise: [log_response] decodes
    the body inside [try: ... except ValueError:]. *)
Definition body_logged (response : option Response) : result unit :=
  match response with
  | None => Return tt
  | Some r =>
      attempt (_ ← json r; Return tt) is_ValueError (fun _ => Return tt)
  end.

Definition log_response (response : option Response) : M unit :=
  view_call (ViewCall.log_response response);;
  lift (body_logged response).

Definition show_success (message : Message) : M unit :=
  view_call (ViewCall.show_success message).

Definition show_error (message : Message) (status : option Z)
    (expected_status : option Z) (error_detail : value) : M unit :=
  view_call (ViewCall.show_error message status expected_status error_detail).

(** What a call prints, line by line; [json.dumps] and the formatting of
    numbers are kept symbolic. *)
Inductive Line : Type :=
| Plain (s : string)
| RequestBanner (meth : string)
| UrlLine (u : Url)
| HeadersLine (hdrs : gmap string string)
| BodyJson (v : value)
| BodyText (s : string)
| StatusLine (code : Z)
| SuccessLine (message : Message)
| ErrorLine (message : Message)
| ExpectedLine (expected_status got : Z)
| DetailsLine (error_detail : value).

Definition printed (c : ViewCall.t) : list Line :=
  match c with
  | ViewCall.log_request meth u hdrs body =>
      [RequestBanner meth; UrlLine u; HeadersLine hdrs]
      ++ match body with
         | Some b => if truthy b then [BodyJson b] else []
         | None => []
         end
  | ViewCall.log_response response =>
      [Plain "=== Response ==="]
      ++ match response with
         | None =>
             [Plain "No response received (request failed)";
              Plain "================"]
         | Some r =>
             StatusLine (status_code r)
             :: match json r with
                | Return v => [BodyJson v; Plain "================"]
                | Raise e =>
                    if is_ValueError e
                    then [BodyText (text r); Plain "================"]
                    else []
                end
         end
  | ViewCall.show_success message => [SuccessLine message]
  | ViewCall.show_error message status expected_status error_detail =>
      [ErrorLine message]
      ++ match status, expected_status with
         | Some s, Some e => [ExpectedLine e s]
         | _, _ => []
         end
      ++ (if truthy error_detail then [DetailsLine error_detail] else [])
  end.

Definition stdout (w : World) : list Line := concat (map printed (calls w)).

End Document360View.

(** ** class Document360Presenter *)

Module Document360Presenter.

(** The block every method runs on failure:
<<
    error_detail = None
    if response:
        try:
            error_detail = response.json().get('error', 'No error details provided')
        except ValueError:
            error_detail = response.text
>>
    [if response:] is false for [None] and, through [Response.__bool__],
    for a response that is not [ok]. *)
Definition error_detail_of (response : option Response) : result value :=
  match response with
  | Some r =>
      if ok r then
        attempt
          (body ← json r;
           Py.get body "error" (VStr "No error details provided"))
          is_ValueError
          (fun _ => Return (VStr (text r)))
      else Return VNone
  | None => Return VNone
  end.

(** [response.status_code if response else None] *)
Definition status_of (response : option Response) : option Z :=
  match response with
  | Some r => if ok r then Some (status_code r) else None
  | None => None
  end.

Definition get_all_folders : M value :=
  Document360View.show_success (Msg "Task 1: Fetching all folders");;
  this ← self;
  Document360View.log_request "GET" (Collection (base_url this)) (headers this) None;;
  '(data, response) ← Document360Model.get_all_folders;
  Document360View.log_response response;;
  if is_None data then
    error_detail ← lift (error_detail_of response);
    Document360View.show_error (Msg "Failed to fetch folders")
      (status_of response) (Some 200) error_detail;;
    mret VNone
  else mret data.

Definition create_folder (folder_name : string) : M value :=
  Document360View.show_success (Msg "Task 2: Creating a new folder");;
  this ← self;
  Document360View.log_request "POST" (Collection (base_url this)) (headers this)
    (Some (VDict {[ "name" := VStr folder_name ]}));;
  '(folder_id, response) ← Document360Model.create_folder folder_name;
  Document360View.log_response response;;
  if is_None folder_id then
    error_detail ← lift (error_detail_of response);
    Document360View.show_error (Msg "Failed to create folder")
      (status_of response) (Some 201) error_detail;;
    mret VNone
  else
    Document360View.show_success (MsgCreated folder_name folder_id);;
    mret folder_id.

Definition update_folder (folder_id : value) (new_name : string) : M bool :=
  Document360View.show_success (Msg "Task 3: Updating folder name");;
  this ← self;
  Document360View.log_request "PUT" (Item (base_url this) folder_id) (headers this)
    (Some (VDict {[ "name" := VStr new_name ]}));;
  '(success, response) ← Document360Model.update_folder folder_id new_name;
  Document360View.log_response response;;
  if negb success then
    error_detail ← lift (error_detail_of response);
    Document360View.show_error (Msg "Failed to update folder")
      (status_of response) (Some 200) error_detail;;
    mret false
  else
    Document360View.show_success (MsgRenamed folder_id new_name);;
    mret true.

Definition delete_folder (folder_id : value) : M bool :=
  Document360View.show_success (Msg "Task 4: Deleting folder");;
  this ← self;
  Document360View.log_request "DELETE" (Item (base_url this) folder_id) (headers this)
    None;;
  '(success, response) ← Document360Model.delete_folder folder_id;
  Document360View.log_response response;;
  if negb success then
    error_detail ← lift (error_detail_of response);
    Document360View.show_error (Msg "Failed to delete folder")
      (status_of response) (Some 204) error_detail;;
    mret false
  else
    Document360View.show_success (MsgDeleted folder_id);;
    mret true.

End Document360Presenter.

(** ** main *)

(** [sys.exit(code)] *)
Definition sys_exit {A : Type} (code : Z) : M A := raise (SystemExit code).

(** The state [main] sets up before the first operation: a fresh model, no
    request sent, nothing printed. *)
Definition start (net : Transport) (api_token : string) : World :=
  {| model := Document360Model.init api_token;
     remote := net; sent := []; calls := [] |}.

(** The body of [main] after the three constructors.  [uuid_1] and [uuid_2]
    are the two [str(uuid4())[:8]] draws. *)
Definition pipeline (uuid_1 uuid_2 : string) : M unit :=
  folders ← Document360Presenter.get_all_folders;
  if negb (truthy folders) then
    Document360View.show_error (Msg "Failed to fetch folders. Exiting.")
      None None VNone;;
    sys_exit 1
  else
    let folder_name := "TestFolder_" +:+ uuid_1 in
    folder_id ← Document360Presenter.create_folder folder_name;
    if negb (truthy folder_id) then
      Document360View.show_error (Msg "Failed to create folder. Exiting.")
        None None VNone;;
      sys_exit 1
    else
      let new_folder_name := "UpdatedFolder_" +:+ uuid_2 in
      updated ← Document360Presenter.update_folder folder_id new_folder_name;
      if negb updated then
        Document360View.show_error (Msg "Failed to update folder. Exiting.")
          None None VNone;;
        sys_exit 1
      else
        deleted ← Document360Presenter.delete_folder folder_id;
        if negb deleted then
          Document360View.show_error (Msg "Failed to delete folder. Exiting.")
            None None VNone;;
          sys_exit 1
        else mret tt.

Definition main (net : Transport) (api_token uuid_1 uuid_2 : string)
    : result unit * World :=
  pipeline uuid_1 uuid_2 (start net api_token).

(** Exit status of the interpreter: 0 when [main] returns, the argument of
    [sys.exit], and 1 when another exception reaches the top level. *)
Definition exit_code (r : result unit) : Z :=
  match r with
  | Return _ => 0
  | Raise (SystemExit code) => code
  | Raise _ => 1
  end.

(** ** Vocabulary of the statements *)

(** The four operations with their arguments. *)
Inductive Operation : Type :=
| List
| Create (folder_name : string)
| Update (folder_id : value) (new_name : string)
| Delete (folder_id : value).

(** The status each method compares the response with. *)
Definition expected (op : Operation) : Z :=
  match op with
  | List => 200
  | Create _ => 201
  | Update _ _ => 200
  | Delete _ => 204
  end.

(** The request each method hands to [requests]. *)
Definition wire (this : Model) (op : Operation) : Request :=
  match op with
  | List =>
      {| method := "GET"; url := Collection (base_url this);
         req_headers := headers this; req_json := None; timeout := 10 |}
  | Create folder_name =>
      {| method := "POST"; url := Collection (base_url this);
         req_headers := headers this;
         req_json := Some (VDict {[ "name" := VStr folder_name ]});
         timeout := 10 |}
  | Update folder_id new_name =>
      {| method := "PUT"; url := Item (base_url this) folder_id;
         req_headers := headers this;
         req_json := Some (VDict {[ "name" := VStr new_name ]});
         timeout := 10 |}
  | Delete folder_id =>
      {| method := "DELETE"; url := Item (base_url this) folder_id;
         req_headers := headers this; req_json := None; timeout := 10 |}
  end.

(** The model method of an operation; the [bool] of update and delete is
    returned as a Python value. *)
Definition client (op : Operation) : M (value * option Response) :=
  match op with
  | List => Document360Model.get_all_folders
  | Create folder_name => Document360Model.create_folder folder_name
  | Update folder_id new_name =>
      '(success, response) ← Document360Model.update_folder folder_id new_name;
      mret (VBool success, response)
  | Delete folder_id =>
      '(success, response) ← Document360Model.delete_folder folder_id;
      mret (VBool success, response)
  end.

(** The presenter method of an operation. *)
Definition present (op : Operation) : M value :=
  match op with
  | List => Document360Presenter.get_all_folders
  | Create folder_name => Document360Presenter.create_folder folder_name
  | Update folder_id new_name =>
      success ← Document360Presenter.update_folder folder_id new_name;
      mret (VBool success)
  | Delete folder_id =>
      success ← Document360Presenter.delete_folder folder_id;
      mret (VBool success)
  end.

(** What a method returns for a failure: [None], or [False]. *)
Definition failure (op : Operation) : value :=
  match op with
  | List | Create _ => VNone
  | Update _ _ | Delete _ => VBool false
  end.

(** The two view calls a presenter method makes before the model call. *)
Definition announce (this : Model) (op : Operation) : list ViewCall.t :=
  match op with
  | List =>
      [ViewCall.show_success (Msg "Task 1: Fetching all folders");
       ViewCall.log_request "GET" (Collection (base_url this)) (headers this) None]
  | Create folder_name =>
      [ViewCall.show_success (Msg "Task 2: Creating a new folder");
       ViewCall.log_request "POST" (Collection (base_url this)) (headers this)
         (Some (VDict {[ "name" := VStr folder_name ]}))]
  | Update folder_id new_name =>
      [ViewCall.show_success (Msg "Task 3: Updating folder name");
       ViewCall.log_request "PUT" (Item (base_url this) folder_id) (headers this)
         (Some (VDict {[ "name" := VStr new_name ]}))]
  | Delete folder_id =>
      [ViewCall.show_success (Msg "Task 4: Deleting folder");
       ViewCall.log_request "DELETE" (Item (base_url this) folder_id)
         (headers this) None]
  end.

(** The message of the presenter's error report. *)
Definition complaint (op : Operation) : Message :=
  match op with
  | List => Msg "Failed to fetch folders"
  | Create _ => Msg "Failed to create folder"
  | Update _ _ => Msg "Failed to update folder"
  | Delete _ => Msg "Failed to delete folder"
  end.

(** State updates, for reading final states. *)
Definition with_sent (w : World) (reqs : list Request) : World :=
  {| model := model w; remote := remote w; sent := sent w ++ reqs;
     calls := calls w |}.

Definition with_calls (w : World) (cs : list ViewCall.t) : World :=
  {| model := model w; remote := remote w; sent := sent w;
     calls := calls w ++ cs |}.

(** [s] between double quotes, for writing JSON text. *)
Definition quoted (s : string) : string :=
  String "034"%char s +:+ String "034"%char EmptyString.

Definition with_folder_id (w : World) (v : value) : World :=
  {| model := {| base_url := base_url (model w); headers := headers (model w);
                 folder_id := v |};
     remote := remote w; sent := sent w; calls := calls w |}.

(** Whether a method gets as far as its request: update and delete return
    early on a falsy id. *)
Definition attempts (op : Operation) : bool :=
  match op with
  | List | Create _ => true
  | Update folder_id _ | Delete folder_id => truthy folder_id
  end.

(** Whether a presenter method takes the returned value for a failure:
    [data is None], [folder_id is None], [not success]. *)
Definition failed (op : Operation) (v : value) : bool :=
  match op with
  | List | Create _ => is_None v
  | Update _ _ | Delete _ => negb (truthy v)
  end.

(** The success message a presenter method ends with, if any. *)
Definition confirmation (op : Operation) (v : value) : list ViewCall.t :=
  match op with
  | List => []
  | Create folder_name => [ViewCall.show_success (MsgCreated folder_name v)]
  | Update folder_id new_name =>
      [ViewCall.show_success (MsgRenamed folder_id new_name)]
  | Delete folder_id => [ViewCall.show_success (MsgDeleted folder_id)]
  end.

(** The error report of a presenter method, as the view receives it. *)
Definition report (op : Operation) (status : option Z) (error_detail : value)
    : ViewCall.t :=
  ViewCall.show_error (complaint op) status (Some (expected op)) error_detail.

(** The details of the error reports made so far, oldest first. *)
Definition reported_details (w : World) : list value :=
  concat (map (fun c => match c with
                        | ViewCall.show_error _ _ _ error_detail => [error_detail]
                        | _ => []
                        end) (calls w)).

(** ** Responses and runs used as examples *)

(** A remote side that answers every request with the same response. *)
Definition always (r : Response) : Transport := fun _ _ => inl r.

(** 201 with body [{"id":"abc123"}] *)
Definition created_abc123 : Response :=
  {| status_code := 201;
     text := "{" +:+ quoted "id" +:+ ":" +:+ quoted "abc123" +:+ "}";
     decoded := Decoded (VDict {[ "id" := VStr "abc123" ]}) |}.



(** 201 with body [null] *)
Definition created_null : Response :=
  {| status_code := 201; text := "null"; decoded := Decoded VNone |}.


(** 200 with a body that is not JSON *)
Definition listing_garbled : Response :=
  {| status_code := 200; text := "<html>"; decoded := NotJSON |}.

(** 404 with body [{"error":"Folder not found"}] *)
Definition not_found : Response :=
  {| status_code := 404;
     text := "{" +:+ quoted "error" +:+ ":" +:+ quoted "Folder not found" +:+ "}";
     decoded := Decoded (VDict {[ "error" := VStr "Folder not found" ]}) |}.

(** 500 with the raw body [internal error] *)
Definition internal_error : Response :=
  {| status_code := 500; text := "internal error"; decoded := NotJSON |}.

(** 200 with body [[]] *)
Definition empty_listing : Response :=
  {| status_code := 200; text := "[]"; decoded := Decoded (VList []) |}.

(** 200 with body [[{"id":"f0"}]] *)
Definition one_folder_listing : Response :=
  {| status_code := 200;
     text := "[{" +:+ quoted "id" +:+ ":" +:+ quoted "f0" +:+ "}]";
     decoded := Decoded (VList [VDict {[ "id" := VStr "f0" ]}]) |}.

(** 201 with body [{"id":"f1"}] *)
Definition created_f1 : Response :=
  {| status_code := 201;
     text := "{" +:+ quoted "id" +:+ ":" +:+ quoted "f1" +:+ "}";
     decoded := Decoded (VDict {[ "id" := VStr "f1" ]}) |}.

(** 400 with body [{"error":"duplicate name"}] *)
Definition duplicate_name : Response :=
  {| status_code := 400;
     text := "{" +:+ quoted "error" +:+ ":" +:+ quoted "duplicate name" +:+ "}";
     decoded := Decoded (VDict {[ "error" := VStr "duplicate name" ]}) |}.

(** 200 with body [{}] *)
Definition renamed : Response :=
  {| status_code := 200; text := "{}"; decoded := Decoded (VDict ∅) |}.

(** 204 with an empty body *)
Definition no_content : Response :=
  {| status_code := 204; text := EmptyString; decoded := NotJSON |}.

(** A run answered in order by the given listing and creation responses,
    then 200 for the update and 204 for the delete. *)
Definition run_of (listing creation : Response) : Transport := fun n _ =>
  match n with
  | 0%nat => inl listing
  | 1%nat => inl creation
  | 2%nat => inl renamed
  | _ => inl no_content
  end.

(** A remote side that cannot be reached. *)
Definition unreachable : Transport := fun _ _ => inr ConnectionError.

(** ** Fail-fast, stated on the requests of a run *)

(** The methods and the expected statuses of the four steps of [main]. *)
Definition pipeline_methods : list string := ["GET"; "POST"; "PUT"; "DELETE"].
Definition pipeline_statuses : list Z := [200; 201; 200; 204].

(** The [i]-th request of the run got a response with the status its step
    expects. *)
Definition answered_as_expected (net : Transport) (i : nat) (req : Request)
    : Prop :=
  exists resp,
    net i req = inl resp /\ pipeline_statuses !! i = Some (status_code resp).

(** The first [k] steps have run, each with one request answered as
    expected. *)
Definition Progress (net : Transport) (k : nat) (w : World) : Prop :=
  remote w = net
  /\ length (sent w) = k
  /\ map method (sent w) = take k pipeline_methods
  /\ forall i req, sent w !! i = Some req -> answered_as_expected net i req.

(** What fail-fast means for a finished run: the requests follow the order
    of the pipeline, every request but the last was answered as expected,
    and exit code 0 needs all four requests answered as expected. *)
Definition fail_fast (net : Transport) (r : result unit) (w : World) : Prop :=
  (exists k, map method (sent w) = take k pipeline_methods)
  /\ (forall i req, sent w !! i = Some req -> (S i < length (sent w))%nat ->
      answered_as_expected net i req)
  /\ (exit_code r = 0 ->
      length (sent w) = 4%nat
      /\ forall i req, sent w !! i = Some req -> answered_as_expected net i req)
  /\ (exit_code r = 0 \/ exit_code r = 1).

(** ** The steps of [main] *)

(** The operation [main] runs as step [k], once the two names are drawn and
    the id [id] has come back from create. *)
Definition step_op (uuid_1 uuid_2 : string) (k : nat) (id : value)
    : Operation :=
  match k with
  | 0%nat => List
  | 1%nat => Create ("TestFolder_" +:+ uuid_1)
  | 2%nat => Update id ("UpdatedFolder_" +:+ uuid_2)
  | _ => Delete id
  end.

(** The message [main] prints before [sys.exit(1)] at step [k]. *)
Definition exit_message (k : nat) : Message :=
  match k with
  | 0%nat => Msg "Failed to fetch folders. Exiting."
  | 1%nat => Msg "Failed to create folder. Exiting."
  | 2%nat => Msg "Failed to update folder. Exiting."
  | _ => Msg "Failed to delete folder. Exiting."
  end.

(** The exceptions that leave a presenter method, and with it [main]:
    the [TypeError] of create's key test, the [AttributeError] of the error
    block, and what [json()] lets through. *)
Definition escapes (e : exn) : bool :=
  match e with
  | TypeError | AttributeError | ValueError | RecursionError => true
  | _ => false
  end.

(** [isinstance(v, dict)] *)
Definition isinstance_dict (v : value) : bool :=
  match v with VDict _ => true | _ => false end.

(** The state after a successful model call: one more request, and for
    create the id in the cache. *)
Definition success_world (op : Operation) (w : World) (v : value) : World :=
  match op with
  | Create _ => with_folder_id (with_sent w [wire (model w) op]) v
  | _ => with_sent w [wire (model w) op]
  end.

(** What a successful operation has read from the body of its response:
    list returns the decoded list, create the value under ["id"] of the
    decoded object, update and delete nothing; their response only has to
    get through [log_response]. *)
Definition success_body (op : Operation) (r : Response) (v : value) : Prop :=
  match op with
  | List => decoded r = Decoded v /\ isinstance_list v = true
  | Create _ =>
      exists d : gmap string value, decoded r = Decoded (VDict d) /\ d !! "id" = Some v
  | Update _ _ | Delete _ => v = VBool true /\ decoded r <> Crash TooDeep
  end.

(** The four requests of a complete run, for the id [id]. *)
Definition pipeline_requests (this : Model) (uuid_1 uuid_2 : string)
    (id : value) : list Request :=
  map (fun k => wire this (step_op uuid_1 uuid_2 k id)) [0; 1; 2; 3]%nat.

(** The remote side [net] answers the first [k] requests of the run so
    that each step succeeds for [main]: a non-empty JSON list with status
    200, a JSON object with a truthy ["id"] equal to [id] with status 201,
    then status 200 and status 204, each with a body that is not nested too
    deep for [log_response] to decode. *)
Definition answered_through (net : Transport) (this : Model)
    (uuid_1 uuid_2 : string) (k : nat) (id : value) : Prop :=
  ((1 <= k)%nat ->
   exists r0 v,
     net 0%nat (wire this (step_op uuid_1 uuid_2 0 id)) = inl r0
     /\ status_code r0 = 200
     /\ decoded r0 = Decoded v /\ isinstance_list v = true /\ truthy v = true)
  /\ ((2 <= k)%nat ->
      exists r1 (d : gmap string value),
        net 1%nat (wire this (step_op uuid_1 uuid_2 1 id)) = inl r1
        /\ status_code r1 = 201
        /\ decoded r1 = Decoded (VDict d) /\ d !! "id" = Some id
        /\ truthy id = true)
  /\ ((3 <= k)%nat ->
      exists r2,
        net 2%nat (wire this (step_op uuid_1 uuid_2 2 id)) = inl r2
        /\ status_code r2 = 200 /\ decoded r2 <> Crash TooDeep)
  /\ ((4 <= k)%nat ->
      exists r3,
        net 3%nat (wire this (step_op uuid_1 uuid_2 3 id)) = inl r3
        /\ status_code r3 = 204 /\ decoded r3 <> Crash TooDeep).

(** The state of a run of [main] on [net] before step [k]. *)
Definition Stage (net : Transport) (this : Model) (uuid_1 uuid_2 : string)
    (k : nat) (id : value) (w : World) : Prop :=
  remote w = net
  /\ base_url (model w) = base_url this
  /\ headers (model w) = headers this
  /\ sent w = take k (pipeline_requests this uuid_1 uuid_2 id)
  /\ ((2 <= k)%nat -> folder_id (model w) = id)
  /\ answered_through net this uuid_1 uuid_2 k id.

(** The lines [log_request] prints for a request. *)
Definition request_lines (req : Request) : list Document360View.Line :=
  [Document360View.RequestBanner (method req);
   Document360View.UrlLine (url req);
   Document360View.HeadersLine (req_headers req)]
  ++ match req_json req with
     | Some b => [Document360View.BodyJson b]
     | None => []
     end.

(** 201 with body [{"id":""}] *)
Definition created_empty_id : Response :=
  {| status_code := 201;
     text := "{" +:+ quoted "id" +:+ ":" +:+ quoted EmptyString +:+ "}";
     decoded := Decoded (VDict {[ "id" := VStr EmptyString ]}) |}.

(** 200 with the JSON string ["ok"] as body *)
Definition listing_string : Response :=
  {| status_code := 200; text := quoted "ok"; decoded := Decoded (VStr "ok") |}.

(** 200 with a body of 100000 opening brackets, nested too deep for the
    decoder *)
Definition too_deep : Response :=
  {| status_code := 200;
     text := N.iter 100000 (String "["%char) EmptyString;
     decoded := Crash TooDeep |}.

(** 201 with a body that is one integer literal of 5000 digits, more than
    [int] converts *)
Definition created_huge_integer : Response :=
  {| status_code := 201;
     text := N.iter 5000 (String "7"%char) EmptyString;
     decoded := Crash HugeInteger |}.

(** Whether the model method itself decodes the body of [r]: list and
    create do, on their expected status. *)
Definition decodes_in_model (op : Operation) (r : Response) : bool :=
  match op with
  | List | Create _ => status_code r =? expected op
  | Update _ _ | Delete _ => false
  end.

(** * Properties *)

Ltac unfold_program :=
  unfold present, client,
    Document360Presenter.get_all_folders, Document360Presenter.create_folder,
    Document360Presenter.update_folder, Document360Presenter.delete_folder,
    Document360Model.get_all_folders, Document360Model.create_folder,
    Document360Model.update_folder, Document360Model.delete_folder,
    Document360View.show_success, Document360View.show_error,
    Document360View.log_request, Document360View.log_response,
    Document360View.body_logged,
    requests.get, requests.post, requests.put, requests.delete,
    request, try_except, view_call, set_folder_id, self, lift, raise, json,
    with_sent, with_calls, with_folder_id,
    mbind, M_bind, mret, M_ret, result_bind, result_ret.

Ltac run := unfold_program; cbn.

(** ** The model methods, outcome by outcome *)

Section Client.

Variable w : World.
Variable op : Operation.

Let req : Request := wire (model w) op.
Let outcome : Response + request_error := remote w (length (sent w)) req.

(** A falsy id stops update and delete before anything happens. *)
Lemma client_refuses :
  attempts op = false -> client op w = (Return (VBool false, None), w).
Proof.
  destruct op as [| name | id name | id]; cbn; try discriminate;
    intros Hid; run; rewrite Hid; reflexivity.
Qed.

(** A transport fault: the method returns its failure value and no
    response. *)
Lemma client_fault cause :
  attempts op = true ->
  outcome = inr cause ->
  client op w = (Return (failure op, None), with_sent w [req]).
Proof.
  subst outcome req.
  destruct op as [| name | id name | id]; cbn; intros Hid Hnet; run;
    rewrite ?Hid; cbn; rewrite Hnet; reflexivity.
Qed.

(** A response with another status than the expected one. *)
Lemma client_mismatch r :
  attempts op = true ->
  outcome = inl r ->
  status_code r <> expected op ->
  client op w = (Return (failure op, Some r), with_sent w [req]).
Proof.
  subst outcome req.
  destruct op as [| name | id name | id]; cbn; intros Hid Hnet Hne; run;
    rewrite ?Hid; cbn; rewrite Hnet;
    apply Z.eqb_neq in Hne; rewrite Hne; reflexivity.
Qed.

(** The expected status with a body that is not JSON, on the two methods
    that decode the body. *)
Lemma client_undecodable r :
  (op = List \/ exists name, op = Create name) ->
  outcome = inl r ->
  status_code r = expected op ->
  decoded r = NotJSON ->
  client op w = (Return (VNone, None), with_sent w [req]).
Proof.
  subst outcome req.
  intros [-> | [name ->]] Hnet Hst Hdec; cbn in *; run;
    rewrite Hnet; apply Z.eqb_eq in Hst; rewrite Hst, Hdec; reflexivity.
Qed.

(** Update and delete look at the status only. *)
Lemma client_status_only r :
  (exists id name, op = Update id name) \/ (exists id, op = Delete id) ->
  attempts op = true ->
  outcome = inl r ->
  client op w
  = (Return (VBool (status_code r =? expected op), Some r), with_sent w [req]).
Proof.
  subst outcome req.
  intros [(id & name & ->) | (id & ->)] Hid Hnet; cbn in *; run;
    rewrite Hid; cbn; rewrite Hnet; reflexivity.
Qed.

End Client.

(** List with status 200 and a decoded body: the body itself when it is a
    list, [None] otherwise. *)
Lemma list_decoded w r v :
  remote w (length (sent w)) (wire (model w) List) = inl r ->
  status_code r = 200 ->
  decoded r = Decoded v ->
  client List w
  = (Return (if isinstance_list v then v else VNone, Some r),
     with_sent w [wire (model w) List]).
Proof.
  cbn. intros Hnet Hst Hdec. run.
  rewrite Hnet, Hst, Hdec. cbn. destruct (isinstance_list v); reflexivity.
Qed.

(** Create with status 201 and a JSON object: the id is cached and
    returned when the key is there, [None] is returned otherwise. *)
Lemma create_object w folder_name r (d : gmap string value) :
  remote w (length (sent w)) (wire (model w) (Create folder_name)) = inl r ->
  status_code r = 201 ->
  decoded r = Decoded (VDict d) ->
  client (Create folder_name) w
  = match d !! "id" with
    | Some id =>
        (Return (id, Some r),
         with_folder_id (with_sent w [wire (model w) (Create folder_name)]) id)
    | None =>
        (Return (VNone, Some r),
         with_sent w [wire (model w) (Create folder_name)])
    end.
Proof.
  cbn. intros Hnet Hst Hdec. run.
  rewrite Hnet, Hst, Hdec. cbn.
  destruct (d !! "id") as [id |]; reflexivity.
Qed.

(** ** The presenter methods *)

Ltac unfold_presenter :=
  unfold present,
    Document360Presenter.get_all_folders, Document360Presenter.create_folder,
    Document360Presenter.update_folder, Document360Presenter.delete_folder,
    Document360View.show_success, Document360View.show_error,
    Document360View.log_request, Document360View.log_response,
    view_call, self, lift, report, with_calls,
    mbind, M_bind, mret, M_ret.

(** The four presenter methods have one shape: announce, call the model,
    log the response, then either report the failure or confirm. *)
Lemma present_eq op w :
  present op w =
  match client op (with_calls w (announce (model w) op)) with
  | (Return (v, response), w1) =>
      let w2 := with_calls w1 [ViewCall.log_response response] in
      match Document360View.body_logged response with
      | Raise e => (Raise e, w2)
      | Return _ =>
          if failed op v then
            match Document360Presenter.error_detail_of response with
            | Return d =>
                (Return (failure op),
                 with_calls w2
                   [report op (Document360Presenter.status_of response) d])
            | Raise e => (Raise e, w2)
            end
          else (Return v, with_calls w2 (confirmation op v))
      end
  | (Raise e, w1) => (Raise e, w1)
  end.
Proof.
  destruct op as [| name | id name | id]; unfold_presenter; unfold client;
    unfold mbind, M_bind, mret, M_ret; cbn; rewrite <- ?app_assoc; cbn.
  - destruct (Document360Model.get_all_folders _) as [[[v response] | e] w1];
      cbn; [| reflexivity].
    destruct (Document360View.body_logged response) as [[] | e];
      cbn; [| reflexivity].
    destruct (is_None v); cbn.
    + destruct (Document360Presenter.error_detail_of response); reflexivity.
    + rewrite app_nil_r. reflexivity.
  - destruct (Document360Model.create_folder _ _) as [[[v response] | e] w1];
      cbn; [| reflexivity].
    destruct (Document360View.body_logged response) as [[] | e];
      cbn; [| reflexivity].
    destruct (is_None v); cbn; [| reflexivity].
    destruct (Document360Presenter.error_detail_of response); reflexivity.
  - destruct (Document360Model.update_folder _ _ _) as [[[v response] | e] w1];
      cbn; [| reflexivity].
    destruct (Document360View.body_logged response) as [[] | e];
      cbn; [| reflexivity].
    destruct v; cbn; [reflexivity |].
    destruct (Document360Presenter.error_detail_of response); reflexivity.
  - destruct (Document360Model.delete_folder _ _) as [[[v response] | e] w1];
      cbn; [| reflexivity].
    destruct (Document360View.body_logged response) as [[] | e];
      cbn; [| reflexivity].
    destruct v; cbn; [reflexivity |].
    destruct (Document360Presenter.error_detail_of response); reflexivity.
Qed.

(** The failure value of every operation is a failure for its presenter
    method. *)
Lemma failed_failure op : failed op (failure op) = true.
Proof. destruct op; reflexivity. Qed.

(** A response gets through [log_response] unless its body is nested too
    deep to decode. *)
Lemma body_logged_ok r :
  decoded r <> Crash TooDeep ->
  Document360View.body_logged (Some r) = Return tt.
Proof.
  intros Hr. unfold Document360View.body_logged, json.
  destruct (decoded r) as [v | | []]; try reflexivity. destruct (Hr eq_refl).
Qed.

(** What a presenter method does with a failure value from the model. *)
Lemma present_failure op w response w1 d :
  client op (with_calls w (announce (model w) op))
  = (Return (failure op, response), w1) ->
  Document360View.body_logged response = Return tt ->
  Document360Presenter.error_detail_of response = Return d ->
  present op w
  = (Return (failure op),
     with_calls w1
       [ViewCall.log_response response;
        report op (Document360Presenter.status_of response) d]).
Proof.
  intros Hclient Hlogged Hdetail.
  rewrite present_eq, Hclient, Hlogged, failed_failure, Hdetail.
  unfold with_calls; cbn. rewrite <- app_assoc. reflexivity.
Qed.

(** *** Transport faults *)

(** C4. For each of the four operations, when the transport raises instead
    of producing a response, the model method returns its failure value
    with no response, and the presenter method reports the failure with no
    observed status, the operation's expected status (200, 201, 200, 204)
    and no detail. *)
Theorem transport_fault_reported op w cause :
  remote w (length (sent w)) (wire (model w) op) = inr cause ->
  fst (client op w) = Return (failure op, None)
  /\ exists w',
       present op w = (Return (failure op), w')
       /\ calls w'
          = calls w ++ announce (model w) op
            ++ [ViewCall.log_response None;
                ViewCall.show_error (complaint op) None (Some (expected op)) VNone]
       /\ model w' = model w.
Proof.
  intros Hnet.
  assert (Hclient : forall w0, model w0 = model w -> remote w0 = remote w ->
            sent w0 = sent w ->
            exists w1, client op w0 = (Return (failure op, None), w1)
                       /\ calls w1 = calls w0 /\ model w1 = model w0).
  { intros w0 Hm Hr Hs.
    destruct (attempts op) eqn:Hatt.
    - eexists; split.
      + eapply client_fault; [exact Hatt |]. rewrite Hm, Hr, Hs. exact Hnet.
      + split; reflexivity.
    - exists w0. rewrite client_refuses by exact Hatt.
      destruct op; try discriminate; repeat split. }
  split.
  - destruct (Hclient w) as (w1 & -> & _); reflexivity.
  - destruct (Hclient (with_calls w (announce (model w) op)))
      as (w1 & Hrun & Hcalls & Hmodel); try reflexivity.
    eexists; split; [| split].
    + eapply present_failure; [exact Hrun | reflexivity | reflexivity].
    + cbn. rewrite Hcalls. cbn. rewrite <- app_assoc. reflexivity.
    + cbn. rewrite Hmodel. reflexivity.
Qed.

(** A witness: creating a folder against an unreachable server. *)
Lemma transport_fault_reported_witness :
  fst (client (Create "Test") (start unreachable "token"))
  = Return (failure (Create "Test"), None)
  /\ exists w',
       present (Create "Test") (start unreachable "token")
       = (Return (failure (Create "Test")), w')
       /\ calls w'
          = calls (start unreachable "token")
            ++ announce (model (start unreachable "token")) (Create "Test")
            ++ [ViewCall.log_response None;
                ViewCall.show_error (complaint (Create "Test")) None
                  (Some (expected (Create "Test"))) VNone]
       /\ model w' = model (start unreachable "token").
Proof.
  apply (transport_fault_reported (Create "Test") (start unreachable "token")
           ConnectionError).
  reflexivity.
Defined.

(** *** Local validation of the id *)

(** C5. Update and delete with the empty string as folder id return
    [False] with no response and leave the state as it was, so no request
    is sent, whatever the remote side would have answered; the presenter
    then reports the failure with no observed status and no detail. *)
Theorem empty_id_rejected_locally w new_name :
  Document360Model.update_folder (VStr EmptyString) new_name w
  = (Return (false, None), w)
  /\ Document360Model.delete_folder (VStr EmptyString) w
     = (Return (false, None), w)
  /\ Document360Presenter.update_folder (VStr EmptyString) new_name w
     = (Return false,
        with_calls w
          (announce (model w) (Update (VStr EmptyString) new_name)
           ++ [ViewCall.log_response None;
               ViewCall.show_error (Msg "Failed to update folder") None
                 (Some 200) VNone]))
  /\ Document360Presenter.delete_folder (VStr EmptyString) w
     = (Return false,
        with_calls w
          (announce (model w) (Delete (VStr EmptyString))
           ++ [ViewCall.log_response None;
               ViewCall.show_error (Msg "Failed to delete folder") None
                 (Some 204) VNone])).
Proof.
  repeat split; run; rewrite <- ?app_assoc; reflexivity.
Qed.

(** The requests sent are the same before and after, on any remote side. *)
Lemma empty_id_sends_nothing w new_name :
  sent (snd (Document360Presenter.update_folder (VStr EmptyString) new_name w))
  = sent w
  /\ sent (snd (Document360Presenter.delete_folder (VStr EmptyString) w))
     = sent w.
Proof. split; run; reflexivity. Qed.

(** *** The expected status with a body that is not JSON *)

(** C10. For list and for create, a response with the expected status
    (200, 201) whose body is not JSON makes the model method return
    [(None, None)], as after a transport fault: the response is dropped,
    and the presenter reports the failure with no observed status and no
    detail. *)
Theorem undecodable_body_drops_response op w r :
  (op = List \/ exists name, op = Create name) ->
  remote w (length (sent w)) (wire (model w) op) = inl r ->
  status_code r = expected op ->
  decoded r = NotJSON ->
  client op w = (Return (VNone, None), with_sent w [wire (model w) op])
  /\ present op w
     = (Return VNone,
        with_calls (with_sent w [wire (model w) op])
          (announce (model w) op
           ++ [ViewCall.log_response None;
               ViewCall.show_error (complaint op) None (Some (expected op))
                 VNone])).
Proof.
  intros Hop Hnet Hst Hdec. split.
  - apply client_undecodable with (r := r); assumption.
  - assert (Hfail : failure op = VNone) by (destruct Hop as [-> | [? ->]]; reflexivity).
    rewrite <- Hfail at 1.
    rewrite (present_failure op w None
               (with_sent (with_calls w (announce (model w) op))
                  [wire (model w) op]) VNone).
    + unfold with_calls, with_sent; cbn. rewrite <- app_assoc. reflexivity.
    + rewrite Hfail.
      apply (client_undecodable (with_calls w (announce (model w) op)) op r);
        assumption.
    + reflexivity.
    + reflexivity.
Qed.

Lemma undecodable_body_drops_response_witness :
  client List (start (always listing_garbled) "token")
  = (Return (VNone, None),
     with_sent (start (always listing_garbled) "token")
       [wire (model (start (always listing_garbled) "token")) List])
  /\ present List (start (always listing_garbled) "token")
     = (Return VNone,
        with_calls
          (with_sent (start (always listing_garbled) "token")
             [wire (model (start (always listing_garbled) "token")) List])
          (announce (model (start (always listing_garbled) "token")) List
           ++ [ViewCall.log_response None;
               ViewCall.show_error (complaint List) None (Some (expected List))
                 VNone])).
Proof.
  apply (undecodable_body_drops_response List
           (start (always listing_garbled) "token") listing_garbled).
  - left; reflexivity.
  - reflexivity.
  - reflexivity.
  - reflexivity.
Defined.

(** *** Responses with an error status *)

(** [if response:] is false for a status in 400..599, so for such a
    response the presenter extracts no detail and passes no status on. *)
Lemma error_status_hides_response r :
  400 <= status_code r < 600 ->
  Document360Presenter.error_detail_of (Some r) = Return VNone
  /\ Document360Presenter.status_of (Some r) = None.
Proof.
  intros [Hlo Hhi].
  unfold Document360Presenter.error_detail_of, Document360Presenter.status_of, ok.
  apply Z.leb_le in Hlo. apply Z.ltb_lt in Hhi. rewrite Hlo, Hhi.
  split; reflexivity.
Qed.

(** For any other status the detail is the ["error"] field of a JSON
    object, a fixed text when the object has no such field, and the raw
    text when the body is not JSON or decoding it raises a [ValueError]; a
    JSON body that is not an object has no [get] method, and a
    [RecursionError] of the decoder is not caught. *)
Lemma other_status_detail r :
  ~ (400 <= status_code r < 600) ->
  Document360Presenter.error_detail_of (Some r)
  = match decoded r with
    | Decoded (VDict d) =>
        Return (default (VStr "No error details provided") (d !! "error"))
    | Decoded _ => Raise AttributeError
    | NotJSON | Crash HugeInteger => Return (VStr (text r))
    | Crash TooDeep => Raise RecursionError
    end
  /\ Document360Presenter.status_of (Some r) = Some (status_code r).
Proof.
  intros Hout.
  unfold Document360Presenter.error_detail_of, Document360Presenter.status_of, ok.
  assert (Hok : negb ((400 <=? status_code r) && (status_code r <? 600)) = true).
  { apply negb_true_iff, andb_false_iff.
    destruct (Z.leb_spec 400 (status_code r)); [| left; reflexivity].
    destruct (Z.ltb_spec (status_code r) 600); [| right; reflexivity].
    exfalso; apply Hout; lia. }
  rewrite Hok. split; [| reflexivity].
  unfold json. destruct (decoded r) as [[] | | []]; reflexivity.
Qed.

(** Every operation that reaches its request reports a response with a
    status in 400..599 with no observed status and no detail, once the
    response has got through [log_response]. *)
Lemma error_status_reported_blind op w r :
  attempts op = true ->
  remote w (length (sent w)) (wire (model w) op) = inl r ->
  400 <= status_code r < 600 ->
  decoded r <> Crash TooDeep ->
  present op w
  = (Return (failure op),
     with_calls (with_sent w [wire (model w) op])
       (announce (model w) op
        ++ [ViewCall.log_response (Some r);
            ViewCall.show_error (complaint op) None (Some (expected op)) VNone])).
Proof.
  intros Hid Hnet Hst Hbody.
  destruct (error_status_hides_response r Hst) as [Hdetail Hstatus].
  rewrite (present_failure op w (Some r)
             (with_sent (with_calls w (announce (model w) op))
                [wire (model w) op]) VNone).
  - rewrite Hstatus. unfold report, with_calls, with_sent; cbn.
    rewrite <- app_assoc. reflexivity.
  - apply (client_mismatch (with_calls w (announce (model w) op)) op r);
      [exact Hid | exact Hnet |].
    destruct op; cbn; lia.
  - apply body_logged_ok, Hbody.
  - exact Hdetail.
Qed.

(** On the console such a report is the error line alone: neither the
    expected-against-observed line nor the details line is printed. *)
Lemma blind_report_prints_one_line message expected_status :
  Document360View.printed
    (ViewCall.show_error message None (Some expected_status) VNone)
  = [Document360View.ErrorLine message].
Proof. reflexivity. Qed.

(** C6. Two error responses received by the list operation:
    404 with body [{"error":"Folder not found"}] and 500 with the raw body
    [internal error].  In both runs the error report carries no observed
    status and no detail: the ["error"] field and the raw text are not
    looked at. *)
Theorem error_responses_reported_without_detail :
  present List (start (always not_found) "token")
  = (Return VNone,
     with_calls
       (with_sent (start (always not_found) "token")
          [wire (Document360Model.init "token") List])
       (announce (Document360Model.init "token") List
        ++ [ViewCall.log_response (Some not_found);
            ViewCall.show_error (Msg "Failed to fetch folders") None (Some 200)
              VNone]))
  /\ present List (start (always internal_error) "token")
     = (Return VNone,
        with_calls
          (with_sent (start (always internal_error) "token")
             [wire (Document360Model.init "token") List])
          (announce (Document360Model.init "token") List
           ++ [ViewCall.log_response (Some internal_error);
               ViewCall.show_error (Msg "Failed to fetch folders") None
                 (Some 200) VNone])).
Proof.
  split.
  - apply (error_status_reported_blind List (start (always not_found) "token")
             not_found); [reflexivity | reflexivity | cbn; lia | discriminate].
  - apply (error_status_reported_blind List
             (start (always internal_error) "token") internal_error);
      [reflexivity | reflexivity | cbn; lia | discriminate].
Qed.

(** *** Exceptions that leave a model method *)

(** The expected status with a body whose decoding crashes, on the two
    methods that decode the body: the exception of [json()] is not a
    [RequestException] and leaves the method. *)
Lemma client_crash op w r c :
  (op = List \/ exists name, op = Create name) ->
  remote w (length (sent w)) (wire (model w) op) = inl r ->
  status_code r = expected op ->
  decoded r = Crash c ->
  client op w = (Raise (crash_exn c), with_sent w [wire (model w) op]).
Proof.
  intros [-> | [name ->]] Hnet Hst Hdec; cbn in *; run;
    rewrite Hnet; apply Z.eqb_eq in Hst; rewrite Hst, Hdec;
    destruct c; reflexivity.
Qed.

(** Updating and deleting always return; listing returns unless [json()]
    itself crashes. *)
Lemma client_returns op w :
  (forall name, op <> Create name) ->
  (exists v response w', client op w = (Return (v, response), w'))
  \/ (op = List
      /\ exists c w', client op w = (Raise (crash_exn c), w')).
Proof.
  intros Hop. destruct op as [| name | id name | id].
  - run. destruct (remote w _ _) as [r | cause]; cbn; [| eauto 6].
    destruct (status_code r =? 200); cbn; [| eauto 6].
    destruct (decoded r) as [v | | c]; cbn; [| eauto 6 |].
    + destruct (isinstance_list v); cbn; eauto 6.
    + right. split; [reflexivity |]. exists c. destruct c; cbn; eauto.
  - destruct (Hop name); reflexivity.
  - left. run. destruct (truthy id); cbn; [| eauto].
    destruct (remote w _ _) as [r | cause]; cbn; eauto.
  - left. run. destruct (truthy id); cbn; [| eauto].
    destruct (remote w _ _) as [r | cause]; cbn; eauto.
Qed.

(** Creating returns, or raises [TypeError], or [json()] itself crashes. *)
Lemma create_returns_or_TypeError folder_name w :
  (exists v response w',
      client (Create folder_name) w = (Return (v, response), w'))
  \/ (exists w', client (Create folder_name) w = (Raise TypeError, w'))
  \/ exists c w', client (Create folder_name) w = (Raise (crash_exn c), w').
Proof.
  run. destruct (remote w _ _) as [r | cause]; cbn; [| eauto 6].
  destruct (status_code r =? 201); cbn; [| eauto 6].
  destruct (decoded r) as [v | | c]; cbn; [| eauto 6 |].
  - destruct v as [| b | n | f | s | xs | d]; cbn; eauto 6.
    + destruct (String.index 0 "id" s); cbn; eauto 6.
    + destruct (existsb _ xs); cbn; eauto 6.
    + destruct (d !! "id") as [id |]; cbn; eauto 6.
  - right. right. exists c. destruct c; cbn; eauto.
Qed.

(** C8. A 201 response whose JSON body is [null]: [create_folder] does not
    return; the [TypeError] of ['id' in response_data] leaves the
    method. *)
Theorem create_folder_raises_on_null_body :
  Document360Model.create_folder "Test" (start (always created_null) "token")
  = (Raise TypeError,
     with_sent (start (always created_null) "token")
       [wire (Document360Model.init "token") (Create "Test")]).
Proof. reflexivity. Qed.

(** The same happens for a list that holds the string ["id"] and for a
    string that holds it, at the subscript. *)
Lemma create_folder_raises_on_list_body :
  fst (Document360Model.create_folder "Test"
         (start (always {| status_code := 201; text := "[...]";
                           decoded := Decoded (VList [VStr "id"]) |}) "token"))
  = Raise TypeError
  /\ fst (Document360Model.create_folder "Test"
            (start (always {| status_code := 201; text := "...";
                              decoded := Decoded (VStr "valid") |}) "token"))
     = Raise TypeError.
Proof. split; reflexivity. Qed.

(** *** The cached folder id *)

(** C9. Listing, updating and deleting leave the [folder_id] field of the
    model as it was, whatever the remote side answers (a successful delete
    included).  Creating leaves it as it was too, unless the response has
    status 201 and its JSON body is an object with the key ["id"]; the
    field then holds the value of that key. *)
Theorem folder_id_frame w :
  folder_id (model (snd (Document360Model.get_all_folders w)))
  = folder_id (model w)
  /\ (forall id new_name,
        folder_id (model (snd (Document360Model.update_folder id new_name w)))
        = folder_id (model w))
  /\ (forall id,
        folder_id (model (snd (Document360Model.delete_folder id w)))
        = folder_id (model w))
  /\ (forall folder_name,
        folder_id (model (snd (Document360Model.create_folder folder_name w)))
        = folder_id (model w)
        \/ exists r (d : gmap string value) id,
             remote w (length (sent w)) (wire (model w) (Create folder_name))
             = inl r
             /\ status_code r = 201
             /\ decoded r = Decoded (VDict d)
             /\ d !! "id" = Some id
             /\ folder_id
                  (model (snd (Document360Model.create_folder folder_name w)))
                = id).
Proof.
  repeat split.
  - run. destruct (remote w _ _) as [r | cause]; cbn; [| reflexivity].
    destruct (status_code r =? 200); cbn; [| reflexivity].
    destruct (decoded r) as [v | | c]; cbn; [| reflexivity |].
    + destruct (isinstance_list v); reflexivity.
    + destruct c; reflexivity.
  - intros id new_name. run. destruct (truthy id); cbn; [| reflexivity].
    destruct (remote w _ _) as [r | cause]; reflexivity.
  - intros id. run. destruct (truthy id); cbn; [| reflexivity].
    destruct (remote w _ _) as [r | cause]; reflexivity.
  - intros folder_name.
    destruct (remote w (length (sent w)) (wire (model w) (Create folder_name)))
      as [r | cause] eqn:Hnet.
    + destruct (Z.eq_dec (status_code r) 201) as [Hst | Hst].
      * destruct (decoded r) as [v | | c] eqn:Hdec.
        3: { left.
             change (Document360Model.create_folder folder_name)
               with (client (Create folder_name)).
             rewrite (client_crash (Create folder_name) w r c); eauto. }
        -- destruct v as [| b | n | f | s | xs | d].
           7: { destruct (d !! "id") as [id |] eqn:Hid.
                - right. exists r, d, id. repeat split; try assumption.
                  change (Document360Model.create_folder folder_name)
                    with (client (Create folder_name)).
                  rewrite (create_object w folder_name r d Hnet Hst Hdec), Hid.
                  reflexivity.
                - left.
                  change (Document360Model.create_folder folder_name)
                    with (client (Create folder_name)).
                  rewrite (create_object w folder_name r d Hnet Hst Hdec), Hid.
                  reflexivity. }
           all: left; cbn in Hnet; run; rewrite Hnet, Hst, Hdec; cbn;
             try reflexivity.
           ++ destruct (String.index 0 "id" s); reflexivity.
           ++ destruct (existsb _ xs); reflexivity.
        -- left. cbn in Hnet. run. rewrite Hnet, Hst, Hdec. reflexivity.
      * left.
        change (Document360Model.create_folder folder_name)
          with (client (Create folder_name)).
        rewrite (client_mismatch w (Create folder_name) r);
          [reflexivity | reflexivity | exact Hnet | exact Hst].
    + left.
      change (Document360Model.create_folder folder_name)
        with (client (Create folder_name)).
      rewrite (client_fault w (Create folder_name) cause);
        [reflexivity | reflexivity | exact Hnet].
Qed.

(** The presenter methods add nothing: they do not touch the model. *)
Lemma present_keeps_model op w :
  model (snd (present op w))
  = model (snd (client op (with_calls w (announce (model w) op)))).
Proof.
  rewrite present_eq.
  destruct (client op _) as [[[v response] | e] w1]; cbn; [| reflexivity].
  destruct (Document360View.body_logged response); [| reflexivity].
  destruct (failed op v); [| reflexivity].
  destruct (Document360Presenter.error_detail_of response); reflexivity.
Qed.

(** *** The expected status with a body of the wrong shape *)



(** The first half of C2 on a concrete response: status 201 and body
    [{"id":"abc123"}] give the id ["abc123"], which is also cached. *)
Lemma create_abc123 :
  Document360Model.create_folder "Test" (start (always created_abc123) "token")
  = (Return (VStr "abc123", Some created_abc123),
     with_folder_id
       (with_sent (start (always created_abc123) "token")
          [wire (Document360Model.init "token") (Create "Test")])
       (VStr "abc123"))
  /\ fst (Document360Presenter.create_folder "Test"
            (start (always created_abc123) "token"))
     = Return (VStr "abc123").
Proof. split; reflexivity. Qed.





(** ** The pipeline of [main] *)

(** C1. The end-to-end run with List answered 200 with body [[]], Create 201
    with [{"id":"f1"}], Update 200, Delete 204.  [main] takes the empty
    list for a failure ([not folders]): after the list request it prints
    its own error and exits with code 1; create, update and delete are
    never requested. *)
Theorem main_exits_1_on_empty_listing api_token uuid_1 uuid_2 :
  main (run_of empty_listing created_f1) api_token uuid_1 uuid_2
  = (Raise (SystemExit 1),
     with_calls
       (with_sent (start (run_of empty_listing created_f1) api_token)
          [wire (Document360Model.init api_token) List])
       (announce (Document360Model.init api_token) List
        ++ [ViewCall.log_response (Some empty_listing);
            ViewCall.show_error (Msg "Failed to fetch folders. Exiting.")
              None None VNone]))
  /\ exit_code
       (fst (main (run_of empty_listing created_f1) api_token uuid_1 uuid_2))
     = 1
  /\ Document360Presenter.get_all_folders
       (start (run_of empty_listing created_f1) api_token)
     = (Return (VList []),
        with_calls
          (with_sent (start (run_of empty_listing created_f1) api_token)
             [wire (Document360Model.init api_token) List])
          (announce (Document360Model.init api_token) List
           ++ [ViewCall.log_response (Some empty_listing)])).
Proof. repeat split. Qed.

(** With one folder in the listing the same run goes through: four
    requests, four confirmations, exit code 0. *)
Lemma main_exits_0_on_one_folder api_token uuid_1 uuid_2 :
  let this := Document360Model.init api_token in
  let folder_name := "TestFolder_" +:+ uuid_1 in
  let new_folder_name := "UpdatedFolder_" +:+ uuid_2 in
  main (run_of one_folder_listing created_f1) api_token uuid_1 uuid_2
  = (Return tt,
     with_calls
       (with_folder_id
          (with_sent (start (run_of one_folder_listing created_f1) api_token)
             [wire this List;
              wire this (Create folder_name);
              wire this (Update (VStr "f1") new_folder_name);
              wire this (Delete (VStr "f1"))])
          (VStr "f1"))
       (announce this List
        ++ [ViewCall.log_response (Some one_folder_listing)]
        ++ announce this (Create folder_name)
        ++ [ViewCall.log_response (Some created_f1);
            ViewCall.show_success (MsgCreated folder_name (VStr "f1"))]
        ++ announce this (Update (VStr "f1") new_folder_name)
        ++ [ViewCall.log_response (Some renamed);
            ViewCall.show_success (MsgRenamed (VStr "f1") new_folder_name)]
        ++ announce this (Delete (VStr "f1"))
        ++ [ViewCall.log_response (Some no_content);
            ViewCall.show_success (MsgDeleted (VStr "f1"))]))
  /\ exit_code
       (fst (main (run_of one_folder_listing created_f1) api_token uuid_1 uuid_2))
     = 0.
Proof. repeat split. Qed.

(** C7. The end-to-end run with List answered 200 with one folder, Create
    answered 400 with body [{"error":"duplicate name"}].  The pipeline
    stops there: two requests are sent, no update and no delete, and the
    exit code is 1.  The failure of create is reported with no observed
    status and no detail: the text [duplicate name] is not extracted. *)
Theorem main_halts_on_duplicate_name api_token uuid_1 uuid_2 :
  let this := Document360Model.init api_token in
  let folder_name := "TestFolder_" +:+ uuid_1 in
  main (run_of one_folder_listing duplicate_name) api_token uuid_1 uuid_2
  = (Raise (SystemExit 1),
     with_calls
       (with_sent (start (run_of one_folder_listing duplicate_name) api_token)
          [wire this List; wire this (Create folder_name)])
       (announce this List
        ++ [ViewCall.log_response (Some one_folder_listing)]
        ++ announce this (Create folder_name)
        ++ [ViewCall.log_response (Some duplicate_name);
            ViewCall.show_error (Msg "Failed to create folder") None (Some 201)
              VNone;
            ViewCall.show_error (Msg "Failed to create folder. Exiting.")
              None None VNone]))
  /\ exit_code
       (fst (main (run_of one_folder_listing duplicate_name)
               api_token uuid_1 uuid_2))
     = 1
  /\ reported_details
       (snd (main (run_of one_folder_listing duplicate_name)
               api_token uuid_1 uuid_2))
     = [VNone; VNone].
Proof. repeat split. Qed.

(** ** Fail-fast *)

(** A truthy value is never taken for a failure. *)
Lemma truthy_not_failed op v : truthy v = true -> failed op v = false.
Proof.
  destruct op; cbn; intros Hv; try (rewrite Hv; reflexivity);
    destruct v; try reflexivity; discriminate.
Qed.

(** The failure values, [None] and [False], are falsy. *)
Lemma falsy_failure op : truthy (failure op) = false.
Proof. destruct op; reflexivity. Qed.

(** The exceptions of the error block are the [AttributeError] of [get]
    on a JSON body that is not an object and the [RecursionError] of the
    decoder. *)
Lemma error_detail_raises response e :
  Document360Presenter.error_detail_of response = Raise e -> escapes e = true.
Proof.
  unfold Document360Presenter.error_detail_of.
  destruct response as [r |]; [| discriminate].
  destruct (ok r); [| discriminate].
  unfold json. destruct (decoded r) as [[] | | []]; cbn;
    intros [= <-] || discriminate; reflexivity.
Qed.

(** The only exception of [log_response] is the [RecursionError] of the
    decoder. *)
Lemma body_logged_raises response e :
  Document360View.body_logged response = Raise e ->
  e = RecursionError
  /\ exists r, response = Some r /\ decoded r = Crash TooDeep.
Proof.
  unfold Document360View.body_logged, json.
  destruct response as [r |]; [| discriminate].
  destruct (decoded r) as [v | | []] eqn:Hdec; cbn; try discriminate.
  intros [= <-]. split; [reflexivity |]. exists r. split; [reflexivity | exact Hdec].
Qed.

(** One model call that reaches its request: exactly one request is sent,
    the view and the connection data are untouched, a value that is not a
    failure comes with a response of the expected status, and the only
    exceptions are [TypeError] and those of the decoder. *)
Lemma client_step op w :
  attempts op = true ->
  exists res w',
    client op w = (res, w')
    /\ sent w' = sent w ++ [wire (model w) op]
    /\ remote w' = remote w
    /\ calls w' = calls w
    /\ base_url (model w') = base_url (model w)
    /\ headers (model w') = headers (model w)
    /\ (forall v response, res = Return (v, response) -> failed op v = false ->
        exists r, remote w (length (sent w)) (wire (model w) op) = inl r
                  /\ status_code r = expected op)
    /\ (forall e, res = Raise e -> escapes e = true).
Proof.
  intros Hid.
  destruct (remote w (length (sent w)) (wire (model w) op)) as [r | cause] eqn:Hnet.
  2: { do 2 eexists. split; [apply (client_fault w op cause Hid Hnet) |].
       repeat split; try discriminate.
       intros v response [= <- <-]. rewrite failed_failure. discriminate. }
  destruct (Z.eq_dec (status_code r) (expected op)) as [Hst | Hst].
  2: { do 2 eexists. split; [apply (client_mismatch w op r Hid Hnet Hst) |].
       repeat split; try discriminate.
       intros v response [= <- <-]. rewrite failed_failure. discriminate. }
  assert (Hr : exists r0, inl r = inl r0 :> Response + request_error
                          /\ status_code r0 = expected op) by eauto.
  destruct op as [| name | id name | id].
  - destruct (decoded r) as [v | | c] eqn:Hdec.
    + do 2 eexists. split; [apply (list_decoded w r v Hnet Hst Hdec) |].
      repeat split; try discriminate. intros; exact Hr.
    + do 2 eexists. split; [apply (client_undecodable w List r); auto |].
      repeat split; try discriminate. intros; exact Hr.
    + do 2 eexists. split; [apply (client_crash List w r c); auto |].
      repeat split; try discriminate.
      intros e [= <-]. destruct c; reflexivity.
  - cbn in Hnet, Hst. unfold client.
    destruct (Document360Model.create_folder name w) as [res w'] eqn:Hrun.
    exists res, w'. split; [reflexivity |].
    revert Hrun. run. rewrite Hnet, Hst. cbn.
    destruct (decoded r) as [v | | c]; cbn.
    2: { intros [= <- <-]. cbn. repeat split; try discriminate. intros; exact Hr. }
    2: { destruct c; cbn; intros [= <- <-]; cbn; repeat split;
           try discriminate; intros e [= <-]; reflexivity. }
    destruct v as [| b | n | f | s | xs | d]; cbn;
      try (intros [= <- <-]; cbn; repeat split; intros;
           first [exact Hr | congruence
                 | match goal with H : Raise _ = Raise _ |- _ =>
                     injection H as <-; reflexivity end]).
    + destruct (String.index 0 "id" s); cbn; intros [= <- <-]; cbn;
        repeat split; intros;
        first [exact Hr | congruence
              | match goal with H : Raise _ = Raise _ |- _ =>
                  injection H as <-; reflexivity end].
    + destruct (existsb _ xs); cbn; intros [= <- <-]; cbn;
        repeat split; intros;
        first [exact Hr | congruence
              | match goal with H : Raise _ = Raise _ |- _ =>
                  injection H as <-; reflexivity end].
    + destruct (d !! "id"); cbn; intros [= <- <-]; cbn;
        repeat split; intros; first [exact Hr | congruence].
  - do 2 eexists. split; [apply (client_status_only w _ r); eauto |].
    repeat split; try discriminate. intros; exact Hr.
  - do 2 eexists. split; [apply (client_status_only w _ r); eauto |].
    repeat split; try discriminate. intros; exact Hr.
Qed.

(** The same for a presenter method, with a truthy result, as [main]
    tests it. *)
Lemma present_step op w :
  attempts op = true ->
  exists res w',
    present op w = (res, w')
    /\ sent w' = sent w ++ [wire (model w) op]
    /\ remote w' = remote w
    /\ base_url (model w') = base_url (model w)
    /\ headers (model w') = headers (model w)
    /\ (forall v, res = Return v -> truthy v = true ->
        exists r, remote w (length (sent w)) (wire (model w) op) = inl r
                  /\ status_code r = expected op)
    /\ (forall e, res = Raise e -> escapes e = true).
Proof.
  intros Hid. rewrite present_eq.
  destruct (client_step op (with_calls w (announce (model w) op)) Hid)
    as (res & w1 & -> & Hsent & Hremote & _ & Hbase & Hheaders & Hgood & Hexn).
  cbn in Hsent, Hremote, Hbase, Hheaders, Hgood.
  destruct res as [[v response] | e].
  - destruct (Document360View.body_logged response) as [[] | e] eqn:Hlogged.
    2: { do 2 eexists; split; [reflexivity |]. cbn.
         repeat split; try assumption; try discriminate.
         intros e0 [= <-].
         destruct (body_logged_raises _ _ Hlogged) as [-> _]. reflexivity. }
    destruct (failed op v) eqn:Hfailed.
    + destruct (Document360Presenter.error_detail_of response) as [d | e] eqn:Hd.
      * do 2 eexists; split; [reflexivity |]. cbn.
        repeat split; try assumption; try discriminate.
        intros v0 [= <-] Hv. rewrite falsy_failure in Hv. discriminate.
      * do 2 eexists; split; [reflexivity |]. cbn.
        repeat split; try assumption; try discriminate.
        intros e0 [= <-]. exact (error_detail_raises _ _ Hd).
    + do 2 eexists; split; [reflexivity |]. cbn.
      repeat split; try assumption; try discriminate.
      intros v0 [= <-] _. exact (Hgood v response eq_refl Hfailed).
  - do 2 eexists; split; [reflexivity |].
    repeat split; try assumption; try discriminate.
    intros e0 [= <-]. exact (Hexn e eq_refl).
Qed.

(** Step [k] of the pipeline: a truthy result extends the progress. *)
Lemma progress_step net k w op :
  Progress net k w ->
  attempts op = true ->
  pipeline_methods !! k = Some (method (wire (model w) op)) ->
  pipeline_statuses !! k = Some (expected op) ->
  exists res w',
    present op w = (res, w')
    /\ sent w' = sent w ++ [wire (model w) op]
    /\ base_url (model w') = base_url (model w)
    /\ headers (model w') = headers (model w)
    /\ (forall v, res = Return v -> truthy v = true -> Progress net (S k) w')
    /\ (forall e, res = Raise e -> escapes e = true).
Proof.
  intros (Hremote & Hlen & Hmethods & Hanswered) Hid Hmethod Hstatus.
  destruct (present_step op w Hid)
    as (res & w' & Hrun & Hsent & Hremote' & Hbase & Hheaders & Hgood & Hexn).
  exists res, w'.
  split; [exact Hrun |]. split; [exact Hsent |]. split; [exact Hbase |].
  split; [exact Hheaders |]. split; [| exact Hexn].
  intros v Hres Hv. split; [| split; [| split]].
  - congruence.
  - rewrite Hsent, length_app, Hlen. cbn. lia.
  - rewrite Hsent, map_app, Hmethods, (take_S_r _ _ _ Hmethod). reflexivity.
  - intros i req Hi. rewrite Hsent in Hi.
    apply lookup_snoc_Some in Hi as [[_ Hi] | [-> <-]]; [eauto |].
    destruct (Hgood v Hres Hv) as (r & Hnet & Hst).
    exists r. rewrite Hremote in Hnet. split; [exact Hnet |].
    rewrite Hlen, Hstatus, Hst. reflexivity.
Qed.

(** A run that ends with exit code 1 after the request of step [k]. *)
Lemma halted net k w w' req r :
  Progress net k w ->
  sent w' = sent w ++ [req] ->
  pipeline_methods !! k = Some (method req) ->
  exit_code r = 1 ->
  fail_fast net r w'.
Proof.
  intros (Hremote & Hlen & Hmethods & Hanswered) Hsent Hmethod Hexit.
  split; [| split; [| split]].
  - exists (S k).
    rewrite Hsent, map_app, Hmethods, (take_S_r _ _ _ Hmethod). reflexivity.
  - intros i req0 Hi Hlt. rewrite Hsent in Hi, Hlt.
    apply lookup_snoc_Some in Hi as [[_ Hi] | [-> <-]]; [eauto |].
    rewrite length_app in Hlt. cbn in Hlt. lia.
  - rewrite Hexit. discriminate.
  - right. exact Hexit.
Qed.

(** A run that went through the four steps. *)
Lemma completed net w w' :
  Progress net 4 w -> sent w' = sent w -> fail_fast net (Return tt) w'.
Proof.
  intros (Hremote & Hlen & Hmethods & Hanswered) Hsent.
  rewrite <- Hsent in *.
  split; [| split; [| split]]; eauto.
Qed.

(** An exception that reaches the top level gives exit code 1. *)
Lemma uncaught_exit_code e : escapes e = true -> exit_code (Raise e) = 1.
Proof. destruct e; try discriminate; reflexivity. Qed.

Ltac halts P Hsent :=
  unfold mbind, M_bind, Document360View.show_error, view_call, sys_exit, raise;
  intros [= <- <-];
  eapply halted; [exact P | exact Hsent | reflexivity | reflexivity].

Ltac escapes P Hsent Hexn :=
  intros [= <- <-];
  eapply halted;
    [exact P | exact Hsent | reflexivity
    | apply uncaught_exit_code, Hexn; reflexivity].

(** Whatever the remote side does, the run of [main] is fail-fast. *)
Lemma pipeline_fail_fast net api_token uuid_1 uuid_2 r w :
  main net api_token uuid_1 uuid_2 = (r, w) -> fail_fast net r w.
Proof.
  unfold main, pipeline.
  assert (P0 : Progress net 0 (start net api_token)).
  { repeat split. intros i req Hi. destruct i; discriminate Hi. }
  destruct (progress_step net 0 _ List P0 eq_refl eq_refl eq_refl)
    as (res0 & w1 & Hrun0 & Hsent0 & _ & _ & Hgo0 & Hexn0).
  change Document360Presenter.get_all_folders with (present List).
  unfold mbind at 1, M_bind at 1. rewrite Hrun0.
  destruct res0 as [folders | e]; [| escapes P0 Hsent0 Hexn0].
  destruct (truthy folders) eqn:Hfolders; cbn [negb]; [| halts P0 Hsent0].
  pose proof (Hgo0 folders eq_refl Hfolders) as P1.
  clear Hrun0 Hgo0 Hexn0.
  set (folder_name := "TestFolder_" +:+ uuid_1).
  destruct (progress_step net 1 w1 (Create folder_name) P1 eq_refl eq_refl eq_refl)
    as (res1 & w2 & Hrun1 & Hsent1 & _ & _ & Hgo1 & Hexn1).
  change (Document360Presenter.create_folder folder_name)
    with (present (Create folder_name)).
  unfold mbind at 1, M_bind at 1. rewrite Hrun1.
  destruct res1 as [folder_id | e]; [| escapes P1 Hsent1 Hexn1].
  destruct (truthy folder_id) eqn:Hid; cbn [negb]; [| halts P1 Hsent1].
  pose proof (Hgo1 folder_id eq_refl Hid) as P2.
  clear Hrun1 Hgo1 Hexn1.
  set (new_folder_name := "UpdatedFolder_" +:+ uuid_2).
  destruct (progress_step net 2 w2 (Update folder_id new_folder_name) P2 Hid
              eq_refl eq_refl)
    as (res2 & w3 & Hrun2 & Hsent2 & _ & _ & Hgo2 & Hexn2).
  unfold present in Hrun2. unfold mbind at 1, M_bind at 1 in Hrun2.
  unfold mbind at 1, M_bind at 1.
  destruct (Document360Presenter.update_folder folder_id new_folder_name w2)
    as [[updated | e] w3'].
  2: { injection Hrun2 as <- <-. escapes P2 Hsent2 Hexn2. }
  injection Hrun2 as <- <-.
  destruct updated; cbn [negb]; [| halts P2 Hsent2].
  pose proof (Hgo2 (VBool true) eq_refl eq_refl) as P3.
  clear Hgo2 Hexn2.
  destruct (progress_step net 3 w3' (Delete folder_id) P3 Hid eq_refl eq_refl)
    as (res3 & w4 & Hrun3 & Hsent3 & _ & _ & Hgo3 & Hexn3).
  unfold present in Hrun3. unfold mbind at 1, M_bind at 1 in Hrun3.
  unfold mbind at 1, M_bind at 1.
  destruct (Document360Presenter.delete_folder folder_id w3')
    as [[deleted | e] w4'].
  2: { injection Hrun3 as <- <-. escapes P3 Hsent3 Hexn3. }
  injection Hrun3 as <- <-.
  destruct deleted; cbn [negb]; [| halts P3 Hsent3].
  intros [= <- <-].
  apply (completed net w4' w4' (Hgo3 (VBool true) eq_refl eq_refl) eq_refl).
Qed.

(** X1. Every run of [main] is fail-fast, whatever the remote side does:
    the requests go out in the order GET, POST, PUT, DELETE, each request
    but the last got a response with the status its step expects, exit
    code 0 needs all four requests answered that way, and the exit code is
    0 or 1. *)
Lemma main_fail_fast net api_token uuid_1 uuid_2 :
  fail_fast net (fst (main net api_token uuid_1 uuid_2))
    (snd (main net api_token uuid_1 uuid_2)).
Proof.
  apply (pipeline_fail_fast net api_token uuid_1 uuid_2).
  destruct (main net api_token uuid_1 uuid_2); reflexivity.
Qed.


(** * Further properties *)

(** ** The effect of one model call *)

(** Requests, view and connection data after one model call. *)
Lemma client_effect op w :
  sent (snd (client op w))
  = sent w ++ (if attempts op then [wire (model w) op] else [])
  /\ remote (snd (client op w)) = remote w
  /\ calls (snd (client op w)) = calls w
  /\ base_url (model (snd (client op w))) = base_url (model w)
  /\ headers (model (snd (client op w))) = headers (model w).
Proof.
  destruct (attempts op) eqn:Hid.
  - destruct (client_step op w Hid)
      as (res & w' & -> & Hsent & Hremote & Hcalls & Hbase & Hheaders & _).
    cbn. repeat split; assumption.
  - rewrite (client_refuses w op Hid). cbn. rewrite app_nil_r.
    repeat split; reflexivity.
Qed.

(** Create with status 201 and a JSON body that is not an object. *)
Lemma create_other_body folder_name w r v :
  remote w (length (sent w)) (wire (model w) (Create folder_name)) = inl r ->
  status_code r = 201 ->
  decoded r = Decoded v ->
  isinstance_dict v = false ->
  client (Create folder_name) w
  = (Raise TypeError, with_sent w [wire (model w) (Create folder_name)])
  \/ client (Create folder_name) w
     = (Return (VNone, Some r), with_sent w [wire (model w) (Create folder_name)]).
Proof.
  cbn. intros Hnet Hst Hdec Hv. run. rewrite Hnet, Hst, Hdec. cbn.
  destruct v as [| b | n | f | s | xs | d]; cbn; try discriminate; auto.
  - destruct (String.index 0 "id" s); cbn; auto.
  - destruct (existsb _ xs); cbn; auto.
Qed.

(** After a failure value from the model the presenter returns nothing
    truthy. *)
Lemma present_of_failure op w response w1 v w' :
  client op (with_calls w (announce (model w) op))
  = (Return (failure op, response), w1) ->
  present op w = (Return v, w') ->
  truthy v = false.
Proof.
  intros Hclient. rewrite present_eq, Hclient, failed_failure.
  destruct (Document360View.body_logged response); [| discriminate].
  destruct (Document360Presenter.error_detail_of response); [| discriminate].
  intros [= <- _]. apply falsy_failure.
Qed.

(** An exception of the model passes through the presenter. *)
Lemma present_of_raise op w e w1 v w' :
  client op (with_calls w (announce (model w) op)) = (Raise e, w1) ->
  present op w = (Return v, w') -> False.
Proof. intros Hclient. rewrite present_eq, Hclient. discriminate. Qed.

(** A body that got through [log_response] is not nested too deep. *)
Lemma body_logged_returns r u :
  Document360View.body_logged (Some r) = Return u -> decoded r <> Crash TooDeep.
Proof.
  intros Hlogged Hdec. unfold Document360View.body_logged, json in Hlogged.
  rewrite Hdec in Hlogged. discriminate Hlogged.
Qed.

(** A presenter method returns a truthy value only on its success path,
    and that path is one state. *)
Lemma present_truthy op w v w' :
  present op w = (Return v, w') ->
  truthy v = true ->
  attempts op = true
  /\ exists r,
       remote w (length (sent w)) (wire (model w) op) = inl r
       /\ status_code r = expected op
       /\ success_body op r v
       /\ w' = with_calls (success_world op w v)
                 (announce (model w) op
                  ++ ViewCall.log_response (Some r) :: confirmation op v).
Proof.
  intros Hrun Hv.
  set (w0 := with_calls w (announce (model w) op)).
  assert (Hfalse : forall response w1,
             client op w0 = (Return (failure op, response), w1) -> False).
  { intros response w1 Hclient.
    pose proof (present_of_failure op w response w1 v w' Hclient Hrun). congruence. }
  destruct (attempts op) eqn:Hid.
  2: { exfalso. apply (Hfalse None w0).
       rewrite (client_refuses w0 op Hid). destruct op; try discriminate; reflexivity. }
  split; [reflexivity |].
  destruct (remote w (length (sent w)) (wire (model w) op)) as [r | cause] eqn:Hnet.
  2: { exfalso. eapply Hfalse. apply (client_fault w0 op cause Hid Hnet). }
  destruct (Z.eq_dec (status_code r) (expected op)) as [Hst | Hst].
  2: { exfalso. eapply Hfalse. apply (client_mismatch w0 op r Hid Hnet Hst). }
  exists r. split; [reflexivity |]. split; [exact Hst |].
  destruct op as [| name | id name | id].
  - destruct (decoded r) as [v0 | | c] eqn:Hdec.
    2: { exfalso. eapply (Hfalse None).
         apply (client_undecodable w0 List r); auto. }
    2: { exfalso.
         exact (present_of_raise _ _ _ _ _ _
                  (client_crash List w0 r c (or_introl eq_refl) Hnet Hst Hdec)
                  Hrun). }
    pose proof (list_decoded w0 r v0 Hnet Hst Hdec) as Hclient.
    destruct (isinstance_list v0) eqn:Hlist.
    2: { exfalso. eapply Hfalse. exact Hclient. }
    rewrite present_eq in Hrun. fold w0 in Hrun. rewrite Hclient in Hrun.
    rewrite (body_logged_ok r) in Hrun by (rewrite Hdec; discriminate).
    assert (Hsome : is_None v0 = false) by (destruct v0; try discriminate; reflexivity).
    cbn in Hrun. rewrite Hsome in Hrun. injection Hrun as <- <-.
    split; [split; [exact Hdec | exact Hlist] |].
    unfold with_calls, with_sent; cbn. rewrite app_nil_r, <- app_assoc. reflexivity.
  - destruct (decoded r) as [v0 | | c] eqn:Hdec.
    2: { exfalso. eapply (Hfalse None).
         apply (client_undecodable w0 (Create name) r); eauto. }
    2: { exfalso.
         exact (present_of_raise _ _ _ _ _ _
                  (client_crash (Create name) w0 r c
                     (or_intror (ex_intro _ name eq_refl)) Hnet Hst Hdec)
                  Hrun). }
    destruct (isinstance_dict v0) eqn:Hdict.
    2: { exfalso.
         destruct (create_other_body name w0 r v0 Hnet Hst Hdec Hdict) as [Hc | Hc].
         - exact (present_of_raise _ _ _ _ _ _ Hc Hrun).
         - exact (Hfalse _ _ Hc). }
    destruct v0 as [| | | | | | d]; try discriminate.
    pose proof (create_object w0 name r d Hnet Hst Hdec) as Hclient.
    destruct (d !! "id") as [id |] eqn:Hkey.
    2: { exfalso. exact (Hfalse _ _ Hclient). }
    rewrite present_eq in Hrun. fold w0 in Hrun. rewrite Hclient in Hrun.
    rewrite (body_logged_ok r) in Hrun by (rewrite Hdec; discriminate).
    cbn in Hrun. destruct (is_None id) eqn:Hnone.
    { exfalso. destruct id; try discriminate Hnone. cbn in Hrun.
      destruct (if ok r then _ else _); [| discriminate Hrun].
      injection Hrun as <- _. discriminate Hv. }
    injection Hrun as <- <-.
    split; [exists d; split; [exact Hdec | exact Hkey] |].
    unfold with_calls, with_folder_id, with_sent; cbn.
    rewrite <- !app_assoc. reflexivity.
  - pose proof (client_status_only w0 (Update id name) r
                  (or_introl (ex_intro _ id (ex_intro _ name eq_refl))) Hid Hnet)
      as Hclient.
    rewrite Hst, Z.eqb_refl in Hclient.
    rewrite present_eq in Hrun. fold w0 in Hrun. rewrite Hclient in Hrun.
    destruct (Document360View.body_logged (Some r)) as [[] | e] eqn:Hlogged;
      [| discriminate Hrun].
    cbn in Hrun. injection Hrun as <- <-.
    split; [split; [reflexivity | exact (body_logged_returns r _ Hlogged)] |].
    unfold with_calls, with_sent; cbn. rewrite <- !app_assoc. reflexivity.
  - pose proof (client_status_only w0 (Delete id) r
                  (or_intror (ex_intro _ id eq_refl)) Hid Hnet)
      as Hclient.
    rewrite Hst, Z.eqb_refl in Hclient.
    rewrite present_eq in Hrun. fold w0 in Hrun. rewrite Hclient in Hrun.
    destruct (Document360View.body_logged (Some r)) as [[] | e] eqn:Hlogged;
      [| discriminate Hrun].
    cbn in Hrun. injection Hrun as <- <-.
    split; [split; [reflexivity | exact (body_logged_returns r _ Hlogged)] |].
    unfold with_calls, with_sent; cbn. rewrite <- !app_assoc. reflexivity.
Qed.

(** ** A proof rule for the pipeline of [main] *)

Section PipelineRule.

Variables uuid_1 uuid_2 : string.
Variable P : nat -> value -> World -> Prop.
Variable Q : result unit -> World -> Prop.

Hypothesis Hgo : forall k id w v w',
  (k < 4)%nat -> P k id w ->
  attempts (step_op uuid_1 uuid_2 k id) = true ->
  present (step_op uuid_1 uuid_2 k id) w = (Return v, w') ->
  truthy v = true ->
  P (S k) (if Nat.eqb k 1 then v else id) w'.

Hypothesis Hstop : forall k id w v w',
  (k < 4)%nat -> P k id w ->
  attempts (step_op uuid_1 uuid_2 k id) = true ->
  present (step_op uuid_1 uuid_2 k id) w = (Return v, w') ->
  truthy v = false ->
  Q (Raise (SystemExit 1))
    (with_calls w' [ViewCall.show_error (exit_message k) None None VNone]).

Hypothesis Hraise : forall k id w e w',
  (k < 4)%nat -> P k id w ->
  attempts (step_op uuid_1 uuid_2 k id) = true ->
  present (step_op uuid_1 uuid_2 k id) w = (Raise e, w') ->
  Q (Raise e) w'.

Hypothesis Hdone : forall id w, P 4%nat id w -> Q (Return tt) w.

(** Step by step: an invariant [P] kept by every successful step, and a
    conclusion [Q] reached wherever the run ends. *)
Lemma pipeline_rule w0 r w :
  P 0%nat VNone w0 -> pipeline uuid_1 uuid_2 w0 = (r, w) -> Q r w.
Proof.
  intros P0. unfold pipeline.
  change Document360Presenter.get_all_folders
    with (present (step_op uuid_1 uuid_2 0 VNone)).
  unfold mbind at 1, M_bind at 1.
  destruct (present (step_op uuid_1 uuid_2 0 VNone) w0)
    as [[folders | e] w1] eqn:Hrun0.
  2: { intros [= <- <-]. apply (Hraise 0%nat VNone w0 e w1); auto; lia. }
  destruct (truthy folders) eqn:Hfolders; cbn [negb].
  2: { unfold mbind, M_bind, Document360View.show_error, view_call, sys_exit, raise.
       intros [= <- <-]. apply (Hstop 0%nat VNone w0 folders w1); auto; lia. }
  assert (P1 : P 1%nat VNone w1)
    by (apply (Hgo 0%nat VNone w0 folders w1); auto; lia).
  change (Document360Presenter.create_folder ("TestFolder_" +:+ uuid_1))
    with (present (step_op uuid_1 uuid_2 1 VNone)).
  unfold mbind at 1, M_bind at 1.
  destruct (present (step_op uuid_1 uuid_2 1 VNone) w1)
    as [[folder_id | e] w2] eqn:Hrun1.
  2: { intros [= <- <-]. apply (Hraise 1%nat VNone w1 e w2); auto; lia. }
  destruct (truthy folder_id) eqn:Hid; cbn [negb].
  2: { unfold mbind, M_bind, Document360View.show_error, view_call, sys_exit, raise.
       intros [= <- <-]. apply (Hstop 1%nat VNone w1 folder_id w2); auto; lia. }
  assert (P2 : P 2%nat folder_id w2)
    by (apply (Hgo 1%nat VNone w1 folder_id w2); auto; lia).
  unfold mbind at 1, M_bind at 1.
  destruct (Document360Presenter.update_folder folder_id
              ("UpdatedFolder_" +:+ uuid_2) w2) as [[updated | e] w3] eqn:Hupd.
  2: { intros [= <- <-]. apply (Hraise 2%nat folder_id w2 e w3); [lia | exact P2 | exact Hid |].
       cbn. unfold mbind, M_bind. rewrite Hupd. reflexivity. }
  assert (Hrun2 : present (step_op uuid_1 uuid_2 2 folder_id) w2
                  = (Return (VBool updated), w3)).
  { cbn. unfold mbind, M_bind. rewrite Hupd. reflexivity. }
  destruct updated; cbn [negb].
  2: { unfold mbind, M_bind, Document360View.show_error, view_call, sys_exit, raise.
       intros [= <- <-].
       apply (Hstop 2%nat folder_id w2 (VBool false) w3); auto; lia. }
  assert (P3 : P 3%nat folder_id w3)
    by (apply (Hgo 2%nat folder_id w2 (VBool true) w3); auto; lia).
  unfold mbind at 1, M_bind at 1.
  destruct (Document360Presenter.delete_folder folder_id w3)
    as [[deleted | e] w4] eqn:Hdel.
  2: { intros [= <- <-]. apply (Hraise 3%nat folder_id w3 e w4); [lia | exact P3 | exact Hid |].
       cbn. unfold mbind, M_bind. rewrite Hdel. reflexivity. }
  assert (Hrun3 : present (step_op uuid_1 uuid_2 3 folder_id) w3
                  = (Return (VBool deleted), w4)).
  { cbn. unfold mbind, M_bind. rewrite Hdel. reflexivity. }
  destruct deleted; cbn [negb].
  2: { unfold mbind, M_bind, Document360View.show_error, view_call, sys_exit, raise.
       intros [= <- <-].
       apply (Hstop 3%nat folder_id w3 (VBool false) w4); auto; lia. }
  intros [= <- <-].
  apply (Hdone folder_id w4).
  apply (Hgo 3%nat folder_id w3 (VBool true) w4); auto; lia.
Qed.

End PipelineRule.

(** ** The requests of a run *)

(** A request depends on the model through its base URL and headers
    only. *)
Lemma wire_ext this this' op :
  base_url this = base_url this' -> headers this = headers this' ->
  wire this op = wire this' op.
Proof. intros Hb Hh. destruct op; cbn; rewrite Hb, Hh; reflexivity. Qed.

(** Listing, updating and deleting leave the cache alone. *)
Lemma client_keeps_cache op w :
  (forall name, op <> Create name) ->
  folder_id (model (snd (client op w))) = folder_id (model w).
Proof.
  intros Hop. destruct op as [| name | id name | id].
  - run. destruct (remote w _ _) as [r | cause]; cbn; [| reflexivity].
    destruct (status_code r =? 200); cbn; [| reflexivity].
    destruct (decoded r) as [v | | c]; cbn; [| reflexivity |].
    + destruct (isinstance_list v); reflexivity.
    + destruct c; reflexivity.
  - destruct (Hop name); reflexivity.
  - run. destruct (truthy id); cbn; [| reflexivity].
    destruct (remote w _ _) as [r | cause]; reflexivity.
  - run. destruct (truthy id); cbn; [| reflexivity].
    destruct (remote w _ _) as [r | cause]; reflexivity.
Qed.

Section Stages.

Variable net : Transport.
Variable api_token uuid_1 uuid_2 : string.

(** Before the first step. *)
Lemma stage_start :
  Stage net (Document360Model.init api_token) uuid_1 uuid_2 0 VNone
    (start net api_token).
Proof.
  repeat split; intros; lia.
Qed.

(** A step that succeeds leads to the next stage; after create the id is
    the one returned. *)
Lemma stage_step k id w v w' :
  (k < 4)%nat ->
  Stage net (Document360Model.init api_token) uuid_1 uuid_2 k id w ->
  attempts (step_op uuid_1 uuid_2 k id) = true ->
  present (step_op uuid_1 uuid_2 k id) w = (Return v, w') ->
  truthy v = true ->
  Stage net (Document360Model.init api_token) uuid_1 uuid_2 (S k)
    (if Nat.eqb k 1 then v else id) w'.
Proof.
  intros Hk (Hremote & Hbase & Hheaders & Hsent & Hcache & H1 & H2 & H3 & H4)
    Hid Hrun Hv.
  destruct (present_truthy _ _ _ _ Hrun Hv) as (_ & r & Hnet & Hst & Hbody & ->).
  rewrite Hremote, Hsent in Hnet.
  rewrite (wire_ext _ _ _ Hbase Hheaders) in Hnet.
  assert (Hlen : length (take k (pipeline_requests (Document360Model.init api_token)
                                   uuid_1 uuid_2 id)) = k).
  { rewrite length_take. cbn. lia. }
  rewrite Hlen in Hnet.
  destruct k as [| [| [| [| k]]]]; try lia; cbn [Nat.eqb].
  - cbn in Hbody. destruct Hbody as [Hdec Hlist].
    split; [exact Hremote |]. split; [exact Hbase |]. split; [exact Hheaders |].
    split; [cbn; rewrite Hsent, Hbase, Hheaders; reflexivity |].
    split; [intros; lia |].
    split; [intros _; exists r, v; repeat split; assumption |].
    split; [intros; lia |]. split; intros; lia.
  - cbn in Hbody. destruct Hbody as (d & Hdec & Hkey).
    split; [exact Hremote |]. split; [exact Hbase |]. split; [exact Hheaders |].
    split; [cbn; rewrite Hsent, Hbase, Hheaders; reflexivity |].
    split; [intros; reflexivity |].
    split; [intros _; apply H1; lia |].
    split; [intros _; exists r, d; repeat split; assumption |].
    split; intros; lia.
  - cbn in Hbody. destruct Hbody as [-> Hdeep].
    split; [exact Hremote |]. split; [exact Hbase |]. split; [exact Hheaders |].
    split; [cbn; rewrite Hsent, Hbase, Hheaders; reflexivity |].
    split; [intros _; apply Hcache; lia |].
    split; [intros _; apply H1; lia |]. split; [intros _; apply H2; lia |].
    split; [intros _; exists r; repeat split; assumption |].
    intros; lia.
  - cbn in Hbody. destruct Hbody as [-> Hdeep].
    split; [exact Hremote |]. split; [exact Hbase |]. split; [exact Hheaders |].
    split; [cbn; rewrite Hsent, Hbase, Hheaders; reflexivity |].
    split; [intros _; apply Hcache; lia |].
    split; [intros _; apply H1; lia |]. split; [intros _; apply H2; lia |].
    split; [intros _; apply H3; lia |].
    intros _; exists r; repeat split; assumption.
Qed.

(** However step [k] ends, its request is the next one of the run. *)
Lemma stage_end k id w res w' :
  (k < 4)%nat ->
  Stage net (Document360Model.init api_token) uuid_1 uuid_2 k id w ->
  attempts (step_op uuid_1 uuid_2 k id) = true ->
  present (step_op uuid_1 uuid_2 k id) w = (res, w') ->
  base_url (model w') = base_url (Document360Model.init api_token)
  /\ headers (model w') = headers (Document360Model.init api_token)
  /\ sent w'
     = take (S k) (pipeline_requests (Document360Model.init api_token)
                     uuid_1 uuid_2 id)
  /\ ((2 <= k)%nat -> folder_id (model w') = id).
Proof.
  intros Hk (Hremote & Hbase & Hheaders & Hsent & Hcache & _) Hid Hrun.
  destruct (present_step _ w Hid)
    as (res' & w1 & Hrun' & Hsent' & _ & Hbase' & Hheaders' & _).
  rewrite Hrun in Hrun'. injection Hrun' as <- <-.
  split; [congruence |]. split; [congruence |]. split.
  - rewrite Hsent', Hsent, (wire_ext _ _ _ Hbase Hheaders).
    symmetry. apply take_S_r.
    destruct k as [| [| [| [| k]]]]; try lia; reflexivity.
  - intros H2. rewrite <- (Hcache H2).
    replace w' with (snd (present (step_op uuid_1 uuid_2 k id) w))
      by (rewrite Hrun; reflexivity).
    rewrite present_keeps_model. rewrite client_keeps_cache; [reflexivity |].
    destruct k as [| [| [| [| k]]]]; try lia; discriminate.
Qed.

(** Fewer answers are needed for fewer steps. *)
Lemma answered_weaken this k k' id :
  (k' <= k)%nat ->
  answered_through net this uuid_1 uuid_2 k id ->
  answered_through net this uuid_1 uuid_2 k' id.
Proof.
  intros Hle (H1 & H2 & H3 & H4).
  repeat split; intros; [apply H1 | apply H2 | apply H3 | apply H4]; lia.
Qed.

(** Where a run of [main] stands when it ends. *)
Lemma run_summary r w :
  main net api_token uuid_1 uuid_2 = (r, w) ->
  exists id k,
    (1 <= k <= 4)%nat
    /\ sent w = take k (pipeline_requests (Document360Model.init api_token)
                          uuid_1 uuid_2 id)
    /\ base_url (model w) = base_url (Document360Model.init api_token)
    /\ headers (model w) = headers (Document360Model.init api_token)
    /\ ((3 <= k)%nat -> folder_id (model w) = id)
    /\ answered_through net (Document360Model.init api_token) uuid_1 uuid_2
         (pred k) id
    /\ (r = Return tt ->
        answered_through net (Document360Model.init api_token) uuid_1 uuid_2
          4 id).
Proof.
  unfold main. intros Hmain. pattern r, w.
  eapply (pipeline_rule uuid_1 uuid_2
            (Stage net (Document360Model.init api_token) uuid_1 uuid_2));
    [| | | | | exact Hmain]; cbv beta.
  - apply stage_step.
  - intros k id w0 v w' Hk Hstage Hid Hrun _.
    destruct (stage_end k id w0 _ w' Hk Hstage Hid Hrun)
      as (Hbase & Hheaders & Hsent & Hcache).
    exists id, (S k). cbn [pred].
    split; [lia |]. split; [exact Hsent |]. split; [exact Hbase |].
    split; [exact Hheaders |]. split; [intros; apply Hcache; lia |].
    split; [apply Hstage | discriminate].
  - intros k id w0 e w' Hk Hstage Hid Hrun.
    destruct (stage_end k id w0 _ w' Hk Hstage Hid Hrun)
      as (Hbase & Hheaders & Hsent & Hcache).
    exists id, (S k). cbn [pred].
    split; [lia |]. split; [exact Hsent |]. split; [exact Hbase |].
    split; [exact Hheaders |]. split; [intros; apply Hcache; lia |].
    split; [apply Hstage | discriminate].
  - intros id w0 (Hremote & Hbase & Hheaders & Hsent & Hcache & Hanswered).
    exists id, 4%nat. cbn [pred].
    split; [lia |]. split; [exact Hsent |]. split; [exact Hbase |].
    split; [exact Hheaders |]. split; [intros; apply Hcache; lia |].
    split; [apply (answered_weaken _ 4); [lia | exact Hanswered] |].
    intros _. exact Hanswered.
  - apply stage_start.
Qed.

End Stages.

(** The details reported after further view calls. *)
Lemma reported_details_with_calls w cs :
  reported_details (with_calls w cs)
  = reported_details w
    ++ concat (map (fun c => match c with
                             | ViewCall.show_error _ _ _ error_detail => [error_detail]
                             | _ => []
                             end) cs).
Proof. unfold reported_details, with_calls; cbn. rewrite map_app, concat_app. reflexivity. Qed.

(** The three ways a run ends, on the result and the final state. *)
Lemma main_outcome_aux net api_token uuid_1 uuid_2 r w :
  main net api_token uuid_1 uuid_2 = (r, w) ->
  match r with
  | Return _ => reported_details w = []
  | Raise (SystemExit code) =>
      code = 1
      /\ exists k id,
           (k < 4)%nat
           /\ sent w
              = take (S k) (pipeline_requests (Document360Model.init api_token)
                              uuid_1 uuid_2 id)
           /\ answered_through net (Document360Model.init api_token)
                uuid_1 uuid_2 k id
           /\ last (calls w)
              = Some (ViewCall.show_error (exit_message k) None None VNone)
  | Raise e => escapes e = true
  end.
Proof.
  unfold main. intros Hmain. pattern r, w.
  eapply (pipeline_rule uuid_1 uuid_2
            (fun k id w =>
               Stage net (Document360Model.init api_token) uuid_1 uuid_2 k id w
               /\ reported_details w = []));
    [| | | | | exact Hmain]; cbv beta.
  - intros k id w0 v w' Hk [Hstage Hclean] Hid Hrun Hv.
    split; [exact (stage_step net api_token uuid_1 uuid_2 k id w0 v w'
                     Hk Hstage Hid Hrun Hv) |].
    destruct (present_truthy _ _ _ _ Hrun Hv) as (_ & r0 & _ & _ & _ & ->).
    rewrite reported_details_with_calls.
    replace (reported_details (success_world _ w0 v)) with (reported_details w0)
      by (destruct (step_op uuid_1 uuid_2 k id); reflexivity).
    rewrite Hclean.
    destruct (step_op uuid_1 uuid_2 k id); reflexivity.
  - intros k id w0 v w' Hk [Hstage _] Hid Hrun _.
    destruct (stage_end net api_token uuid_1 uuid_2 k id w0 _ w' Hk Hstage Hid Hrun)
      as (_ & _ & Hsent & _).
    split; [reflexivity |]. exists k, id. split; [exact Hk |].
    split; [exact Hsent |]. split; [apply Hstage |].
    unfold with_calls; cbn. apply last_snoc.
  - intros k id w0 e w' _ _ Hid Hrun.
    destruct (present_step _ w0 Hid) as (res & w1 & Hrun' & _ & _ & _ & _ & _ & Hexn).
    rewrite Hrun in Hrun'. injection Hrun' as <- <-.
    assert (Hesc : escapes e = true) by (apply Hexn; reflexivity).
    destruct e; first [discriminate Hesc | reflexivity].
  - intros _ w0 [_ Hclean]. exact Hclean.
  - split; [apply stage_start | reflexivity].
Qed.

(** ** Runs of [main] *)


(** X3. Whatever the remote side does, the requests of a run of [main]
    are the first [k] (between 1 and 4) of: GET on the collection, POST on
    the collection with the drawn name, PUT and DELETE on the item of one
    id; all carry the two headers of the model and the timeout 10.  Every
    request but the last was answered so that its step succeeded, the id of
    PUT and DELETE is the value under ["id"] of the POST's response, that
    id is the cached one once the PUT is sent, and the base URL and the
    headers of the model never change. *)
Theorem main_requests_shape net api_token uuid_1 uuid_2 :
  exists id k,
    (1 <= k <= 4)%nat
    /\ sent (snd (main net api_token uuid_1 uuid_2))
       = take k (pipeline_requests (Document360Model.init api_token)
                   uuid_1 uuid_2 id)
    /\ base_url (model (snd (main net api_token uuid_1 uuid_2)))
       = base_url (Document360Model.init api_token)
    /\ headers (model (snd (main net api_token uuid_1 uuid_2)))
       = headers (Document360Model.init api_token)
    /\ ((3 <= k)%nat ->
        folder_id (model (snd (main net api_token uuid_1 uuid_2))) = id)
    /\ answered_through net (Document360Model.init api_token) uuid_1 uuid_2
         (pred k) id.
Proof.
  destruct (main net api_token uuid_1 uuid_2) as [r w] eqn:Hmain. cbn [snd].
  destruct (run_summary net api_token uuid_1 uuid_2 _ _ Hmain)
    as (id & k & Hk & Hsent & Hbase & Hheaders & Hcache & Hanswered & _).
  exists id, k. repeat split; try assumption; apply Hanswered || apply Hk.
Qed.

(** X4. A run of [main] ends in one of three ways.  It returns, and no
    error was reported during the whole run.  Or it exits through
    [sys.exit(1)] at one step [k] of the four (counted from 0): the remote
    side answered the [k] steps before it so that each succeeded, the
    requests sent are those of the steps up to [k] and no more, and the
    last thing shown is the [... Exiting.] error of step [k].  Or an
    exception reaches the top level, and it is one of [TypeError],
    [AttributeError], [ValueError] and [RecursionError]. *)
Theorem main_outcome net api_token uuid_1 uuid_2 :
  match fst (main net api_token uuid_1 uuid_2) with
  | Return _ => reported_details (snd (main net api_token uuid_1 uuid_2)) = []
  | Raise (SystemExit code) =>
      code = 1
      /\ exists k id,
           (k < 4)%nat
           /\ sent (snd (main net api_token uuid_1 uuid_2))
              = take (S k) (pipeline_requests (Document360Model.init api_token)
                              uuid_1 uuid_2 id)
           /\ answered_through net (Document360Model.init api_token)
                uuid_1 uuid_2 k id
           /\ last (calls (snd (main net api_token uuid_1 uuid_2)))
              = Some (ViewCall.show_error (exit_message k) None None VNone)
  | Raise e =>
      e = TypeError \/ e = AttributeError \/ e = ValueError
      \/ e = RecursionError
  end.
Proof.
  destruct (main net api_token uuid_1 uuid_2) as [r w] eqn:Hmain.
  pose proof (main_outcome_aux net api_token uuid_1 uuid_2 r w Hmain) as H.
  cbn [fst snd].
  destruct r as [u | e]; [exact H |].
  destruct e; first [exact H | discriminate H | auto].
Qed.

(** ** One model call *)

(** X5. A model method sends at most one request -- exactly one unless
    update or delete refuses a falsy id -- and it is the request of that
    operation on the model's base URL and headers; it shows nothing on the
    view and leaves the remote side, the base URL and the headers as they
    were.  There is no retry on any path. *)
Theorem model_call_effect op w :
  sent (snd (client op w))
  = sent w ++ (if attempts op then [wire (model w) op] else [])
  /\ remote (snd (client op w)) = remote w
  /\ calls (snd (client op w)) = calls w
  /\ base_url (model (snd (client op w))) = base_url (model w)
  /\ headers (model (snd (client op w))) = headers (model w).
Proof. exact (client_effect op w). Qed.

(** X6. The cached [folder_id] is never read: with any other value in the
    cache, every model method returns the same result and sends the same
    requests, and list, update and delete leave that other value in
    place. *)
Theorem cached_id_is_never_read op w v :
  fst (client op (with_folder_id w v)) = fst (client op w)
  /\ sent (snd (client op (with_folder_id w v))) = sent (snd (client op w))
  /\ ((forall name, op <> Create name) ->
      folder_id (model (snd (client op (with_folder_id w v)))) = v).
Proof.
  destruct op as [| name | id name | id].
  - run. destruct (remote w _ _) as [r | cause]; cbn; [| repeat split].
    destruct (status_code r =? 200); cbn; [| repeat split].
    destruct (decoded r) as [v0 | | c]; cbn; [| repeat split |].
    + destruct (isinstance_list v0); repeat split.
    + destruct c; repeat split.
  - run. split; [| split; [| intros Hne; destruct (Hne name); reflexivity]];
    (destruct (remote w _ _) as [r | cause]; cbn; [| reflexivity];
     destruct (status_code r =? 201); cbn; [| reflexivity];
     destruct (decoded r) as [v0 | | c]; cbn;
       [| reflexivity | destruct c; reflexivity];
     destruct v0 as [| b | n | f | s | xs | d]; cbn; try reflexivity;
     [ destruct (String.index 0 "id" s); reflexivity
     | destruct (existsb _ xs); reflexivity
     | destruct (d !! "id"); reflexivity ]).
  - run. destruct (truthy id); cbn; [| repeat split].
    destruct (remote w _ _) as [r | cause]; repeat split.
  - run. destruct (truthy id); cbn; [| repeat split].
    destruct (remote w _ _) as [r | cause]; repeat split.
Qed.

(** X13. When [create_folder] returns an id that is not [None], that id
    is in the cache, and it is the value under ["id"] of a JSON object
    received with status 201. *)
Theorem create_returns_cached folder_name w v response w' :
  Document360Model.create_folder folder_name w = (Return (v, response), w') ->
  is_None v = false ->
  folder_id (model w') = v
  /\ exists r (d : gmap string value),
       response = Some r
       /\ remote w (length (sent w)) (wire (model w) (Create folder_name)) = inl r
       /\ status_code r = 201
       /\ decoded r = Decoded (VDict d)
       /\ d !! "id" = Some v.
Proof.
  change (Document360Model.create_folder folder_name)
    with (client (Create folder_name)).
  intros Hrun Hv.
  destruct (remote w (length (sent w)) (wire (model w) (Create folder_name)))
    as [r | cause] eqn:Hnet.
  2: { rewrite (client_fault w (Create folder_name) cause eq_refl Hnet) in Hrun.
       injection Hrun as <- _ _. discriminate Hv. }
  destruct (Z.eq_dec (status_code r) 201) as [Hst | Hst].
  2: { rewrite (client_mismatch w (Create folder_name) r eq_refl Hnet Hst) in Hrun.
       injection Hrun as <- _ _. discriminate Hv. }
  destruct (decoded r) as [v0 | | c] eqn:Hdec.
  2: { rewrite (client_undecodable w (Create folder_name) r) in Hrun; eauto.
       injection Hrun as <- _ _. discriminate Hv. }
  2: { rewrite (client_crash (Create folder_name) w r c) in Hrun; eauto.
       discriminate Hrun. }
  destruct (isinstance_dict v0) eqn:Hdict.
  2: { destruct (create_other_body folder_name w r v0 Hnet Hst Hdec Hdict)
         as [Hc | Hc]; rewrite Hc in Hrun; [discriminate Hrun |].
       injection Hrun as <- _ _. discriminate Hv. }
  destruct v0 as [| | | | | | d]; try discriminate.
  rewrite (create_object w folder_name r d Hnet Hst Hdec) in Hrun.
  destruct (d !! "id") as [id |] eqn:Hkey.
  2: { injection Hrun as <- _ _. discriminate Hv. }
  injection Hrun as <- <- <-.
  split; [reflexivity |]. exists r, d. repeat split; assumption.
Qed.

Lemma create_returns_cached_witness :
  folder_id
    (model
       (with_folder_id
          (with_sent (start (always created_abc123) "token")
             [wire (Document360Model.init "token") (Create "Test")])
          (VStr "abc123")))
  = VStr "abc123"
  /\ exists r (d : gmap string value),
       Some created_abc123 = Some r
       /\ remote (start (always created_abc123) "token")
            (length (sent (start (always created_abc123) "token")))
            (wire (model (start (always created_abc123) "token")) (Create "Test"))
          = inl r
       /\ status_code r = 201
       /\ decoded r = Decoded (VDict d)
       /\ d !! "id" = Some (VStr "abc123").
Proof.
  apply (create_returns_cached "Test" (start (always created_abc123) "token")
           (VStr "abc123") (Some created_abc123)).
  - reflexivity.
  - reflexivity.
Defined.

(** ** One presenter call *)

(** The error block on a JSON body without a [get] method. *)
Lemma non_object_detail_raises r v :
  ~ (400 <= status_code r < 600) ->
  decoded r = Decoded v ->
  isinstance_dict v = false ->
  Document360Presenter.error_detail_of (Some r) = Raise AttributeError.
Proof.
  intros Hout Hdec Hv.
  destruct (other_status_detail r Hout) as [-> _]. rewrite Hdec.
  destruct v; try reflexivity; discriminate.
Qed.

(** A failure whose error block raises: the response is logged, then the
    exception leaves the presenter. *)
Lemma present_failure_raises op w response w1 e :
  client op (with_calls w (announce (model w) op))
  = (Return (failure op, response), w1) ->
  Document360View.body_logged response = Return tt ->
  Document360Presenter.error_detail_of response = Raise e ->
  present op w
  = (Raise e, with_calls w1 [ViewCall.log_response response]).
Proof.
  intros Hclient Hlogged Hdetail.
  rewrite present_eq, Hclient, Hlogged, failed_failure, Hdetail. reflexivity.
Qed.

(** A body that [json()] decodes gets through [log_response]. *)
Lemma body_logged_decoded r v :
  decoded r = Decoded v -> Document360View.body_logged (Some r) = Return tt.
Proof. intros Hdec. apply body_logged_ok. rewrite Hdec. discriminate. Qed.

(** X7. A response whose status is not the expected one and not in
    400..599, with a JSON body that is not an object (a list, a string, a
    number, [true], [null]), makes the presenter method raise
    [AttributeError] while it builds the error report: the request and the
    response are logged, but no error is shown and nothing is returned. *)
Theorem mismatch_non_object_body_raises op w r v :
  attempts op = true ->
  remote w (length (sent w)) (wire (model w) op) = inl r ->
  status_code r <> expected op ->
  ~ (400 <= status_code r < 600) ->
  decoded r = Decoded v ->
  isinstance_dict v = false ->
  present op w
  = (Raise AttributeError,
     with_calls (with_sent w [wire (model w) op])
       (announce (model w) op ++ [ViewCall.log_response (Some r)])).
Proof.
  intros Hid Hnet Hst Hout Hdec Hv.
  rewrite (present_failure_raises op w (Some r)
             (with_sent (with_calls w (announce (model w) op))
                [wire (model w) op]) AttributeError).
  - unfold with_calls, with_sent; cbn. rewrite <- app_assoc. reflexivity.
  - apply (client_mismatch (with_calls w (announce (model w) op)) op r);
      assumption.
  - apply (body_logged_decoded r v Hdec).
  - apply (non_object_detail_raises r v); assumption.
Qed.

Lemma mismatch_non_object_body_raises_witness :
  present (Delete (VStr "f1")) (start (always one_folder_listing) "token")
  = (Raise AttributeError,
     with_calls
       (with_sent (start (always one_folder_listing) "token")
          [wire (model (start (always one_folder_listing) "token"))
             (Delete (VStr "f1"))])
       (announce (model (start (always one_folder_listing) "token"))
          (Delete (VStr "f1"))
        ++ [ViewCall.log_response (Some one_folder_listing)])).
Proof.
  apply (mismatch_non_object_body_raises (Delete (VStr "f1"))
           (start (always one_folder_listing) "token") one_folder_listing
           (VList [VDict {[ "id" := VStr "f0" ]}])).
  - reflexivity.
  - reflexivity.
  - cbn. lia.
  - cbn. lia.
  - reflexivity.
  - reflexivity.
Defined.

(** X8. List answered with status 200 and a JSON body that is neither a
    list nor an object: the model returns [None] with the response, and
    the presenter raises [AttributeError] instead of reporting the
    failure. *)
Theorem list_scalar_body_raises w r v :
  remote w (length (sent w)) (wire (model w) List) = inl r ->
  status_code r = 200 ->
  decoded r = Decoded v ->
  isinstance_list v = false ->
  isinstance_dict v = false ->
  Document360Presenter.get_all_folders w
  = (Raise AttributeError,
     with_calls (with_sent w [wire (model w) List])
       (announce (model w) List ++ [ViewCall.log_response (Some r)])).
Proof.
  intros Hnet Hst Hdec Hlist Hdict.
  change Document360Presenter.get_all_folders with (present List).
  pose proof (list_decoded (with_calls w (announce (model w) List)) r v
                Hnet Hst Hdec) as Hclient.
  rewrite Hlist in Hclient.
  rewrite (present_failure_raises List w (Some r) _ AttributeError Hclient).
  - unfold with_calls, with_sent; cbn. rewrite <- app_assoc. reflexivity.
  - apply (body_logged_decoded r v Hdec).
  - apply (non_object_detail_raises r v); [lia | assumption | assumption].
Qed.

Lemma list_scalar_body_raises_witness :
  Document360Presenter.get_all_folders (start (always listing_string) "token")
  = (Raise AttributeError,
     with_calls
       (with_sent (start (always listing_string) "token")
          [wire (model (start (always listing_string) "token")) List])
       (announce (model (start (always listing_string) "token")) List
        ++ [ViewCall.log_response (Some listing_string)])).
Proof.
  apply (list_scalar_body_raises (start (always listing_string) "token")
           listing_string (VStr "ok")); reflexivity.
Defined.

(** X9. Create answered with status 201 and a JSON body that is not an
    object never yields a result in the presenter: either the model's
    [TypeError] passes through or the error block raises [AttributeError].
    One request has been sent and the model is unchanged. *)
Theorem create_non_object_body_raises folder_name w r v :
  remote w (length (sent w)) (wire (model w) (Create folder_name)) = inl r ->
  status_code r = 201 ->
  decoded r = Decoded v ->
  isinstance_dict v = false ->
  exists e w',
    Document360Presenter.create_folder folder_name w = (Raise e, w')
    /\ (e = TypeError \/ e = AttributeError)
    /\ sent w' = sent w ++ [wire (model w) (Create folder_name)]
    /\ model w' = model w.
Proof.
  intros Hnet Hst Hdec Hdict.
  change (Document360Presenter.create_folder folder_name)
    with (present (Create folder_name)).
  destruct (create_other_body folder_name
              (with_calls w (announce (model w) (Create folder_name))) r v
              Hnet Hst Hdec Hdict) as [Hclient | Hclient].
  - do 2 eexists. rewrite present_eq, Hclient.
    split; [reflexivity |]. split; [left; reflexivity |].
    split; reflexivity.
  - do 2 eexists.
    rewrite (present_failure_raises (Create folder_name) w (Some r) _
               AttributeError Hclient).
    + split; [reflexivity |]. split; [right; reflexivity |].
      split; reflexivity.
    + apply (body_logged_decoded r v Hdec).
    + apply (non_object_detail_raises r v); [lia | assumption | assumption].
Qed.

Lemma create_non_object_body_raises_witness :
  exists e w',
    Document360Presenter.create_folder "Test" (start (always created_null) "token")
    = (Raise e, w')
    /\ (e = TypeError \/ e = AttributeError)
    /\ sent w'
       = sent (start (always created_null) "token")
         ++ [wire (model (start (always created_null) "token")) (Create "Test")]
    /\ model w' = model (start (always created_null) "token").
Proof.
  apply (create_non_object_body_raises "Test"
           (start (always created_null) "token") created_null VNone);
    reflexivity.
Defined.





(** X12. List answered with status 200 and a JSON list: the presenter
    returns that list unchanged, the empty list included, and shows
    nothing after the response. *)
Theorem list_returns_the_decoded_list w r xs :
  remote w (length (sent w)) (wire (model w) List) = inl r ->
  status_code r = 200 ->
  decoded r = Decoded (VList xs) ->
  Document360Presenter.get_all_folders w
  = (Return (VList xs),
     with_calls (with_sent w [wire (model w) List])
       (announce (model w) List ++ [ViewCall.log_response (Some r)])).
Proof.
  intros Hnet Hst Hdec.
  change Document360Presenter.get_all_folders with (present List).
  rewrite present_eq.
  rewrite (list_decoded (with_calls w (announce (model w) List)) r _
             Hnet Hst Hdec), (body_logged_decoded r _ Hdec).
  cbn. unfold with_calls, with_sent; cbn.
  rewrite app_nil_r, <- app_assoc. reflexivity.
Qed.

Lemma list_returns_the_decoded_list_witness :
  Document360Presenter.get_all_folders (start (always one_folder_listing) "token")
  = (Return (VList [VDict {[ "id" := VStr "f0" ]}]),
     with_calls
       (with_sent (start (always one_folder_listing) "token")
          [wire (model (start (always one_folder_listing) "token")) List])
       (announce (model (start (always one_folder_listing) "token")) List
        ++ [ViewCall.log_response (Some one_folder_listing)])).
Proof.
  apply (list_returns_the_decoded_list (start (always one_folder_listing) "token")
           one_folder_listing); reflexivity.
Defined.

(** X14. When create is answered with status 201 and an ["id"] that is
    not [None] but falsy (the empty string, 0), the presenter confirms the
    creation and the id is cached, yet [main] takes the id for a failure:
    it prints [Failed to create folder. Exiting.] and exits with code 1
    after two requests, leaving the new folder neither renamed nor
    deleted. *)
Theorem main_exits_on_falsy_id net api_token uuid_1 uuid_2 r0 x xs r1
    (d : gmap string value) id :
  let this := Document360Model.init api_token in
  let folder_name := "TestFolder_" +:+ uuid_1 in
  net 0%nat (wire this List) = inl r0 ->
  status_code r0 = 200 ->
  decoded r0 = Decoded (VList (x :: xs)) ->
  net 1%nat (wire this (Create folder_name)) = inl r1 ->
  status_code r1 = 201 ->
  decoded r1 = Decoded (VDict d) ->
  d !! "id" = Some id ->
  is_None id = false ->
  truthy id = false ->
  main net api_token uuid_1 uuid_2
  = (Raise (SystemExit 1),
     with_calls
       (with_folder_id
          (with_sent (start net api_token)
             [wire this List; wire this (Create folder_name)])
          id)
       (announce this List
        ++ [ViewCall.log_response (Some r0)]
        ++ announce this (Create folder_name)
        ++ [ViewCall.log_response (Some r1);
            ViewCall.show_success (MsgCreated folder_name id);
            ViewCall.show_error (Msg "Failed to create folder. Exiting.")
              None None VNone])).
Proof.
  intros this folder_name Hnet0 Hst0 Hdec0 Hnet1 Hst1 Hdec1 Hid Hnone Hfalsy.
  subst this folder_name.
  cbn in Hnet0, Hnet1 |- *.
  unfold main, pipeline, start. run.
  repeat (first [ rewrite Hnet0 | rewrite Hst0 | rewrite Hdec0
                | rewrite Hnet1 | rewrite Hst1 | rewrite Hdec1
                | rewrite Hid | rewrite Hnone | rewrite Hfalsy ]; cbn).
  reflexivity.
Qed.

Lemma main_exits_on_falsy_id_witness :
  main (run_of one_folder_listing created_empty_id) "token" "1a2b3c4d" "5e6f7a8b"
  = (Raise (SystemExit 1),
     with_calls
       (with_folder_id
          (with_sent (start (run_of one_folder_listing created_empty_id) "token")
             [wire (Document360Model.init "token") List;
              wire (Document360Model.init "token")
                (Create ("TestFolder_" +:+ "1a2b3c4d"))])
          (VStr EmptyString))
       (announce (Document360Model.init "token") List
        ++ [ViewCall.log_response (Some one_folder_listing)]
        ++ announce (Document360Model.init "token")
             (Create ("TestFolder_" +:+ "1a2b3c4d"))
        ++ [ViewCall.log_response (Some created_empty_id);
            ViewCall.show_success
              (MsgCreated ("TestFolder_" +:+ "1a2b3c4d") (VStr EmptyString));
            ViewCall.show_error (Msg "Failed to create folder. Exiting.")
              None None VNone])).
Proof.
  apply (main_exits_on_falsy_id (run_of one_folder_listing created_empty_id)
           "token" "1a2b3c4d" "5e6f7a8b" one_folder_listing
           (VDict {[ "id" := VStr "f0" ]}) [] created_empty_id
           {[ "id" := VStr EmptyString ]} (VStr EmptyString));
    reflexivity.
Defined.

(** ** What the console shows *)


(** The lines of the two announcing calls. *)
Lemma announce_printed this op :
  exists banner,
    concat (map Document360View.printed (announce this op))
    = Document360View.SuccessLine banner :: request_lines (wire this op).
Proof. destruct op; eexists; reflexivity. Qed.





(** A response that reaches [log_response] with a body nested too deep
    to decode: the [RecursionError] of [json()] leaves [log_response] and
    the presenter method. *)
Lemma present_log_raises op w v r w1 :
  client op (with_calls w (announce (model w) op)) = (Return (v, Some r), w1) ->
  decoded r = Crash TooDeep ->
  present op w
  = (Raise RecursionError, with_calls w1 [ViewCall.log_response (Some r)]).
Proof.
  intros Hclient Hdec. rewrite present_eq, Hclient.
  unfold Document360View.body_logged, json. rewrite Hdec. reflexivity.
Qed.



(** X18. When list or create receives the expected status with a body
    that is not JSON, the console says that no response was received,
    although one was, and the error report is the bare error line. *)
Theorem console_after_undecodable_body op w r :
  (op = List \/ exists name, op = Create name) ->
  remote w (length (sent w)) (wire (model w) op) = inl r ->
  status_code r = expected op ->
  decoded r = NotJSON ->
  exists banner,
    Document360View.stdout (snd (present op w))
    = Document360View.stdout w
      ++ Document360View.SuccessLine banner
         :: request_lines (wire (model w) op)
      ++ [Document360View.Plain "=== Response ===";
          Document360View.Plain "No response received (request failed)";
          Document360View.Plain "================";
          Document360View.ErrorLine (complaint op)].
Proof.
  intros Hop Hnet Hst Hdec.
  destruct (announce_printed (model w) op) as (banner & Hannounce).
  exists banner.
  assert (Hfail : failure op = VNone)
    by (destruct Hop as [-> | [? ->]]; reflexivity).
  rewrite (present_failure op w None
             (with_sent (with_calls w (announce (model w) op))
                [wire (model w) op]) VNone).
  - cbn [snd]. unfold Document360View.stdout, with_calls, with_sent; cbn.
    rewrite !map_app, !concat_app, Hannounce. cbn.
    rewrite <- app_assoc. reflexivity.
  - rewrite Hfail.
    apply (client_undecodable (with_calls w (announce (model w) op)) op r);
      assumption.
  - reflexivity.
  - reflexivity.
Qed.

Lemma console_after_undecodable_body_witness :
  exists banner,
    Document360View.stdout
      (snd (present List (start (always listing_garbled) "token")))
    = Document360View.stdout (start (always listing_garbled) "token")
      ++ Document360View.SuccessLine banner
         :: request_lines
              (wire (model (start (always listing_garbled) "token")) List)
      ++ [Document360View.Plain "=== Response ===";
          Document360View.Plain "No response received (request failed)";
          Document360View.Plain "================";
          Document360View.ErrorLine (complaint List)].
Proof.
  apply (console_after_undecodable_body List
           (start (always listing_garbled) "token") listing_garbled).
  - left. reflexivity.
  - reflexivity.
  - reflexivity.
  - reflexivity.
Defined.

(** ** Bodies the decoder gives up on *)

(** X19. A body nested too deep to decode ends every presenter method
    that reaches its request with a [RecursionError], whatever the status:
    nothing is returned and no error is shown.  List and create on their
    expected status raise it in the model, before the response is logged;
    everywhere else the response reaches [log_response], which raises it
    after the status line. *)
Theorem too_deep_body_raises op w r :
  attempts op = true ->
  remote w (length (sent w)) (wire (model w) op) = inl r ->
  decoded r = Crash TooDeep ->
  present op w
  = (Raise RecursionError,
     with_calls (with_sent w [wire (model w) op])
       (announce (model w) op
        ++ (if decodes_in_model op r then []
            else [ViewCall.log_response (Some r)]))).
Proof.
  intros Hid Hnet Hdec.
  assert (Hlog : forall v,
             client op (with_calls w (announce (model w) op))
             = (Return (v, Some r),
                with_sent (with_calls w (announce (model w) op))
                  [wire (model w) op]) ->
             decodes_in_model op r = false ->
             present op w
             = (Raise RecursionError,
                with_calls (with_sent w [wire (model w) op])
                  (announce (model w) op
                   ++ (if decodes_in_model op r then []
                       else [ViewCall.log_response (Some r)])))).
  { intros v Hclient ->. rewrite (present_log_raises op w v r _ Hclient Hdec).
    unfold with_calls, with_sent; cbn. rewrite <- app_assoc. reflexivity. }
  assert (Hmodel : (op = List \/ exists name, op = Create name) ->
             status_code r = expected op ->
             present op w
             = (Raise RecursionError,
                with_calls (with_sent w [wire (model w) op])
                  (announce (model w) op
                   ++ (if decodes_in_model op r then []
                       else [ViewCall.log_response (Some r)])))).
  { intros Hop Hst.
    rewrite present_eq,
      (client_crash op (with_calls w (announce (model w) op)) r TooDeep
         Hop Hnet Hst Hdec).
    replace (decodes_in_model op r) with true
      by (destruct Hop as [-> | [name ->]]; cbn in *; rewrite Hst; reflexivity).
    rewrite app_nil_r. reflexivity. }
  destruct (Z.eq_dec (status_code r) (expected op)) as [Hst | Hst].
  - destruct op as [| name | id name | id].
    + apply Hmodel; [left; reflexivity | exact Hst].
    + apply Hmodel; [right; exists name; reflexivity | exact Hst].
    + apply (Hlog (VBool (status_code r =? 200))); [| reflexivity].
      apply (client_status_only (with_calls w _) (Update id name) r);
        [left; exists id, name; reflexivity | exact Hid | exact Hnet].
    + apply (Hlog (VBool (status_code r =? 204))); [| reflexivity].
      apply (client_status_only (with_calls w _) (Delete id) r);
        [right; exists id; reflexivity | exact Hid | exact Hnet].
  - apply (Hlog (failure op)).
    + apply (client_mismatch (with_calls w (announce (model w) op)) op r);
        assumption.
    + destruct op; cbn in *; try reflexivity; apply Z.eqb_neq; exact Hst.
Qed.

Lemma too_deep_body_raises_witness :
  present (Update (VStr "f1") "Docs") (start (always too_deep) "token")
  = (Raise RecursionError,
     with_calls
       (with_sent (start (always too_deep) "token")
          [wire (model (start (always too_deep) "token"))
             (Update (VStr "f1") "Docs")])
       (announce (model (start (always too_deep) "token"))
          (Update (VStr "f1") "Docs")
        ++ (if decodes_in_model (Update (VStr "f1") "Docs") too_deep then []
            else [ViewCall.log_response (Some too_deep)]))).
Proof.
  apply (too_deep_body_raises (Update (VStr "f1") "Docs")
           (start (always too_deep) "token") too_deep).
  - reflexivity.
  - reflexivity.
  - reflexivity.
Defined.

(** X20. When list or create receives its expected status with a body on
    which [json()] raises something that is not a [RequestException] -- a
    [RecursionError], or the plain [ValueError] of an integer with too many
    digits -- the exception leaves the model method and the presenter
    method: the request has been sent, the response is not logged, no
    failure is reported and the cache is as it was. *)
Theorem decode_crash_leaves_model op w r c :
  (op = List \/ exists name, op = Create name) ->
  remote w (length (sent w)) (wire (model w) op) = inl r ->
  status_code r = expected op ->
  decoded r = Crash c ->
  client op w = (Raise (crash_exn c), with_sent w [wire (model w) op])
  /\ present op w
     = (Raise (crash_exn c),
        with_calls (with_sent w [wire (model w) op]) (announce (model w) op))
  /\ (c = TooDeep \/ c = HugeInteger)
  /\ (crash_exn c = RecursionError \/ crash_exn c = ValueError).
Proof.
  intros Hop Hnet Hst Hdec.
  split; [exact (client_crash op w r c Hop Hnet Hst Hdec) |].
  split; [| split; destruct c; auto].
  rewrite present_eq,
    (client_crash op (with_calls w (announce (model w) op)) r c
       Hop Hnet Hst Hdec).
  reflexivity.
Qed.

Lemma decode_crash_leaves_model_witness :
  client (Create "Test") (start (always created_huge_integer) "token")
  = (Raise (crash_exn HugeInteger),
     with_sent (start (always created_huge_integer) "token")
       [wire (model (start (always created_huge_integer) "token"))
          (Create "Test")])
  /\ present (Create "Test") (start (always created_huge_integer) "token")
     = (Raise (crash_exn HugeInteger),
        with_calls
          (with_sent (start (always created_huge_integer) "token")
             [wire (model (start (always created_huge_integer) "token"))
                (Create "Test")])
          (announce (model (start (always created_huge_integer) "token"))
             (Create "Test")))
  /\ (HugeInteger = TooDeep \/ HugeInteger = HugeInteger)
  /\ (crash_exn HugeInteger = RecursionError
      \/ crash_exn HugeInteger = ValueError).
Proof.
  apply (decode_crash_leaves_model (Create "Test")
           (start (always created_huge_integer) "token")
           created_huge_integer HugeInteger).
  - right. exists "Test". reflexivity.
  - reflexivity.
  - reflexivity.
  - reflexivity.
Defined.
